(** * Anerbot: the signed Slack webhook, the Pub/Sub hand-off and the responder

    A shallow embedding of the Go sources of anerbot:
    - [src/queue/queue.go]    (package [queue]): the [anerbot-queue] entry point;
    - [src/queue.go]          (package [anerbot]): the earlier single-package entry point;
    - [src/response/response.go] (package [response]): the [anerbot-response] consumer.

    Go strings and byte slices are Rocq [string]s (a Rocq [ascii] is one byte);
    the digests produced by [crypto/hmac] are [list Z] of bytes.  The handlers
    are written in a small trace monad: every observable effect (writes to the
    [http.ResponseWriter], Pub/Sub publishes, outgoing HTTP posts, log lines)
    is an event, and a run ends by returning, by [log.Fatalf] (which calls
    [os.Exit(1)]) or by a run-time panic. *)

From Stdlib Require Import String Ascii List ZArith Bool Lia.
Import ListNotations.
Open Scope Z_scope.

(** ** Go string helpers ([strings] package) *)

(** The one-character string holding a double quote. *)
Definition dq : string := String "034"%char EmptyString.

Definition str_eqb (a b : string) : bool := String.eqb a b.

(** [strings.HasPrefix(s, prefix)]. *)
Fixpoint HasPrefix (s prefix : string) {struct prefix} : bool :=
  match prefix, s with
  | EmptyString, _ => true
  | String c p', String d s' => Ascii.eqb c d && HasPrefix s' p'
  | String _ _, EmptyString => false
  end.

Fixpoint skip (n : nat) (s : string) : string :=
  match n, s with
  | O, _ => s
  | S n', String _ s' => skip n' s'
  | S _, EmptyString => EmptyString
  end.

(** [strings.TrimPrefix(s, prefix)]. *)
Definition TrimPrefix (s prefix : string) : string :=
  if HasPrefix s prefix then skip (String.length prefix) s else s.

(** [strings.Cut(s, sep)] for a one-byte separator. *)
Fixpoint Cut (s : string) (sep : ascii) : string * string * bool :=
  match s with
  | EmptyString => (EmptyString, EmptyString, false)
  | String c s' =>
      if Ascii.eqb c sep then (EmptyString, s', true)
      else let '(before, after, found) := Cut s' sep in (String c before, after, found)
  end.

Fixpoint Contains_char (s : string) (c : ascii) : bool :=
  match s with
  | EmptyString => false
  | String d s' => Ascii.eqb c d || Contains_char s' c
  end.

Definition byte_of (c : ascii) : Z := Z.of_nat (nat_of_ascii c).
Definition bytes_of_string (s : string) : list Z := map byte_of (list_ascii_of_string s).

(** ** SHA-256 and HMAC ([crypto/sha256], [crypto/hmac]) *)

Module SHA256.

Definition w32 (x : Z) : Z := Z.land x (2 ^ 32 - 1).
Definition add32 (x y : Z) : Z := w32 (x + y).
Definition rotr (x : Z) (n : Z) : Z := Z.lor (Z.shiftr x n) (w32 (Z.shiftl x (32 - n))).
Definition not32 (x : Z) : Z := Z.lxor x (2 ^ 32 - 1).

Definition Ch (x y z : Z) : Z := Z.lxor (Z.land x y) (Z.land (not32 x) z).
Definition Maj (x y z : Z) : Z := Z.lxor (Z.lxor (Z.land x y) (Z.land x z)) (Z.land y z).
Definition Sigma0 (x : Z) : Z := Z.lxor (Z.lxor (rotr x 2) (rotr x 13)) (rotr x 22).
Definition Sigma1 (x : Z) : Z := Z.lxor (Z.lxor (rotr x 6) (rotr x 11)) (rotr x 25).
Definition sigma0 (x : Z) : Z := Z.lxor (Z.lxor (rotr x 7) (rotr x 18)) (Z.shiftr x 3).
Definition sigma1 (x : Z) : Z := Z.lxor (Z.lxor (rotr x 17) (rotr x 19)) (Z.shiftr x 10).

(** The round constants: the first 32 fraction bits of the cube roots of
    the first 64 primes. *)
Definition K : list Z := [
   1116352408; 1899447441; 3049323471; 3921009573; 961987163;
   1508970993; 2453635748; 2870763221; 3624381080; 310598401;
   607225278; 1426881987; 1925078388; 2162078206; 2614888103;
   3248222580; 3835390401; 4022224774; 264347078; 604807628;
   770255983; 1249150122; 1555081692; 1996064986; 2554220882;
   2821834349; 2952996808; 3210313671; 3336571891; 3584528711;
   113926993; 338241895; 666307205; 773529912; 1294757372;
   1396182291; 1695183700; 1986661051; 2177026350; 2456956037;
   2730485921; 2820302411; 3259730800; 3345764771; 3516065817;
   3600352804; 4094571909; 275423344; 430227734; 506948616;
   659060556; 883997877; 958139571; 1322822218; 1537002063;
   1747873779; 1955562222; 2024104815; 2227730452; 2361852424;
   2428436474; 2756734187; 3204031479; 3329325298].

(** The initial hash value: the first 32 fraction bits of the square roots
    of the first 8 primes. *)
Definition H0 : list Z := [
   1779033703; 3144134277; 1013904242; 2773480762;
   1359893119; 2600822924; 528734635; 1541459225].

(** Big-endian packing of bytes into 32-bit words. *)
Fixpoint words_of_bytes (l : list Z) : list Z :=
  match l with
  | a :: b :: c :: d :: rest =>
      (a * 2 ^ 24 + b * 2 ^ 16 + c * 2 ^ 8 + d) :: words_of_bytes rest
  | _ => []
  end.

Definition bytes_of_word (w : Z) : list Z :=
  [Z.land (Z.shiftr w 24) 255; Z.land (Z.shiftr w 16) 255;
   Z.land (Z.shiftr w 8) 255; Z.land w 255].

(** The message schedule: 16 words extended to 64, kept in reverse order. *)
Fixpoint extend (n : nat) (rev_w : list Z) : list Z :=
  match n with
  | O => rev_w
  | S n' =>
      let w i := nth i rev_w 0 in
      (* rev_w = W[t-1] :: W[t-2] :: ... *)
      extend n' (add32 (add32 (sigma1 (w 1%nat)) (w 6%nat))
                        (add32 (sigma0 (w 14%nat)) (w 15%nat)) :: rev_w)
  end.

Definition schedule (block : list Z) : list Z :=
  rev (extend 48 (rev (words_of_bytes block))).

Definition round (st : list Z) (kw : Z * Z) : list Z :=
  match st with
  | [a; b; c; d; e; f; g; h] =>
      let t1 := add32 (add32 (add32 h (Sigma1 e)) (add32 (Ch e f g) (fst kw))) (snd kw) in
      let t2 := add32 (Sigma0 a) (Maj a b c) in
      [add32 t1 t2; a; b; c; add32 d t1; e; f; g]
  | _ => st
  end.

Definition compress (hs : list Z) (block : list Z) : list Z :=
  let st := fold_left round (combine K (schedule block)) hs in
  map (fun '(x, y) => add32 x y) (combine hs st).

Fixpoint zeros (n : nat) : list Z :=
  match n with O => [] | S n' => 0 :: zeros n' end.

Definition pad (msg : list Z) : list Z :=
  let len := length msg in
  let k := ((119 - (len mod 64)) mod 64)%nat in
  let bitlen := Z.of_nat len * 8 in
  msg ++ [128] ++ zeros k ++
  flat_map (fun i => [Z.land (Z.shiftr bitlen (8 * (7 - Z.of_nat i))) 255]) (seq 0 8).

Fixpoint blocks (fuel : nat) (l : list Z) : list (list Z) :=
  match fuel with
  | O => []
  | S f => match l with [] => [] | _ => firstn 64 l :: blocks f (skipn 64 l) end
  end.

Definition hash (msg : list Z) : list Z :=
  let p := pad msg in
  flat_map bytes_of_word (fold_left compress (blocks (length p) p) H0).

End SHA256.

Module HMAC.

Definition block_size : nat := 64.

(** [hmac.New(sha256.New, key)], [Write(msg)], [Sum(nil)]. *)
Definition hmac_sha256 (key msg : list Z) : list Z :=
  let k := if (length key <=? block_size)%nat then key else SHA256.hash key in
  let k := k ++ SHA256.zeros (block_size - length k) in
  let ipad := map (Z.lxor 54) k in
  let opad := map (Z.lxor 92) k in
  SHA256.hash (opad ++ SHA256.hash (ipad ++ msg)).

End HMAC.

(** [crypto/hmac] applied to Go strings (the key first, as in [hmac.New]). *)
Definition hmac_sha256 (key msg : string) : list Z :=
  HMAC.hmac_sha256 (bytes_of_string key) (bytes_of_string msg).

(** ** [encoding/hex] *)

(** [fromHexChar]: the value of a hex digit (either case) or [None]. *)
Definition fromHexChar (c : ascii) : option Z :=
  let n := Z.of_nat (nat_of_ascii c) in
  if (48 <=? n) && (n <=? 57) then Some (n - 48)
  else if (97 <=? n) && (n <=? 102) then Some (n - 87)
  else if (65 <=? n) && (n <=? 70) then Some (n - 55)
  else None.

(** [hex.DecodeString]: [None] stands for the [InvalidByteError] and
    [ErrLength] results, on which the decoded prefix is discarded by
    [verifyWebHook]. *)
Fixpoint DecodeString (s : string) : option (list Z) :=
  match s with
  | EmptyString => Some []
  | String p (String q rest) =>
      match fromHexChar p, fromHexChar q with
      | Some a, Some b =>
          match DecodeString rest with
          | Some l => Some (a * 16 + b :: l)
          | None => None
          end
      | _, _ => None
      end
  | String _ EmptyString => None
  end.

(** [hmac.Equal] is [subtle.ConstantTimeCompare(a, b) == 1]: same length and
    same bytes.  Only its result is modelled. *)
Fixpoint hmac_Equal (a b : list Z) : bool :=
  match a, b with
  | [], [] => true
  | x :: a', y :: b' => Z.eqb x y && hmac_Equal a' b'
  | _, _ => false
  end.

(** ** [strconv.ParseInt(s, 10, 64)] *)

Definition digit_of (c : ascii) : option Z :=
  let n := Z.of_nat (nat_of_ascii c) in
  if (48 <=? n) && (n <=? 57) then Some (n - 48) else None.

Fixpoint parse_digits (s : string) (acc : Z) : option Z :=
  match s with
  | EmptyString => Some acc
  | String c s' =>
      match digit_of c with
      | Some d => parse_digits s' (acc * 10 + d)
      | None => None
      end
  end.

(** Sign, then at least one decimal digit; the value must fit in an [int64]
    (Go reports [ErrSyntax] or [ErrRange], both [None] here). *)
Definition ParseInt (s : string) : option Z :=
  let '(neg, digits) :=
    match s with
    | String "+"%char s' => (false, s')
    | String "-"%char s' => (true, s')
    | _ => (false, s)
    end in
  match digits with
  | EmptyString => None
  | _ =>
      match parse_digits digits 0 with
      | None => None
      | Some un =>
          if neg then (if un <=? 2 ^ 63 then Some (- un) else None)
          else (if un <? 2 ^ 63 then Some un else None)
      end
  end.

(** ** [time] *)

(** Wrap-around of Go's [int64] arithmetic. *)
Definition wrap64 (z : Z) : Z := (z + 2 ^ 63) mod 2 ^ 64 - 2 ^ 63.

(** A wall-clock [time.Time] without monotonic reading: [ext] counts seconds
    since January 1, year 1 UTC, [nsec] the nanoseconds within the second. *)
Record Time := { ext : Z; nsec : Z }.

Definition unixToInternal : Z := (1969 * 365 + 1969 / 4 - 1969 / 100 + 1969 / 400) * 86400.

(** [time.Unix(sec, 0)] = [Time{0, sec + unixToInternal}], the addition wrapping. *)
Definition Unix (sec : Z) : Time := {| ext := wrap64 (sec + unixToInternal); nsec := 0 |}.

Definition Second : Z := 1000000000.
Definition Minute : Z := 60 * Second.
Definition minDuration : Z := - 2 ^ 63.
Definition maxDuration : Z := 2 ^ 63 - 1.

(** [t.Sub(u)] in nanoseconds, saturating at [minDuration]/[maxDuration]
    when the exact difference does not fit in a [Duration]. *)
Definition Sub (t u : Time) : Z :=
  let d := (ext t - ext u) * Second + (nsec t - nsec u) in
  if d <? minDuration then minDuration
  else if maxDuration <? d then maxDuration
  else d.

(** ** [net/url] and [net/http] request data *)

(** [url.Values]: keys with their values in arrival order. *)
Definition Values := list (string * list string).

Fixpoint values_lookup (v : Values) (k : string) : list string :=
  match v with
  | [] => []
  | (k', vs) :: v' => if str_eqb k k' then vs else values_lookup v' k
  end.

(** [m[k] = append(m[k], x)]. *)
Fixpoint values_add (v : Values) (k x : string) : Values :=
  match v with
  | [] => [(k, [x])]
  | (k', vs) :: v' => if str_eqb k k' then (k', vs ++ [x]) :: v' else (k', vs) :: values_add v' k x
  end.

(** [Values.Get]: the first value, or the empty string. *)
Definition values_get (v : Values) (k : string) : string :=
  match values_lookup v k with
  | x :: _ => x
  | [] => EmptyString
  end.

(** [url.QueryUnescape]: [+] is a space, [%XX] a byte; a [%] not followed
    by two hex digits is an [EscapeError]. *)
Fixpoint QueryUnescape (s : string) : option string :=
  match s with
  | EmptyString => Some EmptyString
  | String "%"%char (String a (String b rest)) =>
      match fromHexChar a, fromHexChar b, QueryUnescape rest with
      | Some x, Some y, Some r => Some (String (ascii_of_nat (Z.to_nat (x * 16 + y))) r)
      | _, _, _ => None
      end
  | String "%"%char _ => None
  | String "+"%char rest => option_map (String " "%char) (QueryUnescape rest)
  | String c rest => option_map (String c) (QueryUnescape rest)
  end.

Definition first_err (err : option string) (e : string) : option string :=
  match err with Some _ => err | None => Some e end.

(** One [key=value] segment of [parseQuery]; [err] is the first error so far. *)
Definition parseQuery_segment (acc : Values * option string) (seg : string)
  : Values * option string :=
  let '(m, err) := acc in
  if Contains_char seg ";"%char then (m, Some "invalid semicolon separator in query"%string)
  else match seg with
  | EmptyString => (m, err)
  | _ =>
      let '(key, value, _) := Cut seg "="%char in
      match QueryUnescape key with
      | None => (m, first_err err "invalid URL escape")
      | Some key' =>
          match QueryUnescape value with
          | None => (m, first_err err "invalid URL escape")
          | Some value' => (values_add m key' value', err)
          end
      end
  end.

(** The segments between [&] separators, as produced by repeated [strings.Cut]. *)
Fixpoint split_amp (fuel : nat) (s : string) : list string :=
  match fuel with
  | O => []
  | S f =>
      match s with
      | EmptyString => []
      | _ => let '(seg, rest, _) := Cut s "&"%char in seg :: split_amp f rest
      end
  end.

(** [url.ParseQuery]: the values parsed and the first error. *)
Definition ParseQuery (q : string) : Values * option string :=
  fold_left parseQuery_segment (split_amp (String.length q) q) ([], None).

(** An [*http.Request] as the handlers see it: the method, [URL.RawQuery],
    the header (canonical keys, in order) and the raw body. *)
Record Request := {
  Method : string;
  RawQuery : string;
  Header : list (string * string);
  Body : string
}.

(** [Header.Get]: the first value under the key, or the empty string. *)
Fixpoint header_lookup (h : list (string * string)) (k : string) : string :=
  match h with
  | [] => EmptyString
  | (k', v) :: h' => if str_eqb k k' then v else header_lookup h' k
  end.

Definition header_get (r : Request) (k : string) : string := header_lookup (Header r) k.

(** [r.URL.Query()]: [ParseQuery] with its error dropped. *)
Definition URL_Query (r : Request) : Values := fst (ParseQuery (RawQuery r)).

(** *** [mime.ParseMediaType], media type part *)

Definition ascii_lower (c : ascii) : ascii :=
  let n := nat_of_ascii c in
  if (65 <=? n)%nat && (n <=? 90)%nat then ascii_of_nat (n + 32) else c.

Fixpoint ToLower (s : string) : string :=
  match s with EmptyString => EmptyString | String c s' => String (ascii_lower c) (ToLower s') end.

Definition is_space (c : ascii) : bool :=
  Ascii.eqb c " "%char || Ascii.eqb c "009"%char || Ascii.eqb c "010"%char || Ascii.eqb c "013"%char.

Fixpoint trim_left (s : string) : string :=
  match s with String c s' => if is_space c then trim_left s' else s | EmptyString => s end.

Definition TrimSpace (s : string) : string :=
  string_of_list_ascii (rev (list_ascii_of_string (trim_left
    (string_of_list_ascii (rev (list_ascii_of_string (trim_left s))))))).

(** [isTokenChar]: printable ASCII outside the RFC 1521 tspecials. *)
Definition isTokenChar (c : ascii) : bool :=
  let n := nat_of_ascii c in
  (32 <? n)%nat && (n <? 127)%nat && negb (Contains_char "()<>@,;:\/[]?="%string c)
  && negb (Ascii.eqb c "034"%char).

Fixpoint token_prefix (s : string) : string * string :=
  match s with
  | String c s' => if isTokenChar c then let '(t, r) := token_prefix s' in (String c t, r) else (EmptyString, s)
  | EmptyString => (EmptyString, EmptyString)
  end.

(** [checkMediaTypeDisposition]: a token, optionally followed by [/token]. *)
Definition checkMediaTypeDisposition (s : string) : bool :=
  let '(typ, rest) := token_prefix s in
  match typ, rest with
  | EmptyString, _ => false
  | _, EmptyString => true
  | _, String "/"%char rest' =>
      let '(sub, rest'') := token_prefix rest' in
      match sub, rest'' with String _ _, EmptyString => true | _, _ => false end
  | _, _ => false
  end.

(** The media type of a [Content-Type] value, or [None] when
    [mime.ParseMediaType] rejects it.  Parameters after [;] are not
    validated in this model. *)
Definition ParseMediaType (v : string) : option string :=
  let '(base, _, _) := Cut v ";"%char in
  let mediatype := TrimSpace (ToLower base) in
  if checkMediaTypeDisposition mediatype then Some mediatype else None.

Definition maxFormSize : Z := 10485760.

(** [parsePostForm]. *)
Definition parsePostForm (r : Request) : Values * option string :=
  let ct := header_get r "Content-Type" in
  let ct := if str_eqb ct EmptyString then "application/octet-stream"%string else ct in
  match ParseMediaType ct with
  | None => ([], Some "mime: invalid media type"%string)
  | Some mt =>
      if str_eqb mt "application/x-www-form-urlencoded" then
        if maxFormSize <? Z.of_nat (String.length (Body r)) then ([], Some "http: POST too large"%string)
        else ParseQuery (Body r)
      else ([], None)
  end.

(** [r.ParseForm()]: [r.Form] holds the body values, then the URL query
    values; the error is the body's, else the query's. *)
Definition ParseForm (r : Request) : Values * option string :=
  let m := Method r in
  let '(post, err) :=
    if str_eqb m "POST" || str_eqb m "PUT" || str_eqb m "PATCH" then parsePostForm r
    else ([], None) in
  let '(q, e) := ParseQuery (RawQuery r) in
  let form := fold_left (fun acc '(k, vs) => fold_left (fun a x => values_add a k x) vs acc) q post in
  (form, match err with Some _ => err | None => e end).

(** ** Effects of the handlers *)

Record queueMessage := { Query : string; ResponseUrl : string }.

Record queueResponse := { ResponseType : string; Text : string }.

(** What became of a [publishMessage] call on the Pub/Sub side:
    [pubsub.NewClient] failed, [result.Get] reported an error, or the
    publish was acknowledged. *)
Inductive PubOutcome := ClientError | PublishError | Acked.

Inductive event :=
| ReadBody                                   (* ioutil.ReadAll(r.Body) *)
| HttpError (code : Z) (msg : string)        (* http.Error(w, msg, code) *)
| SetHeader (key value : string)             (* w.Header().Set *)
| WriteHeader (code : Z)                     (* w.WriteHeader *)
| Encode (res : queueResponse)               (* json.NewEncoder(w).Encode(res) *)
| Publish (m : queueMessage)                 (* t.Publish: message handed to the topic *)
| PublishAck (m : queueMessage)              (* result.Get returned no error *)
| Log (msg : string).                        (* log output *)

(** How a run ends: the function returned, [log.Fatalf] ended the process
    ([os.Exit(1)]), or a run-time panic (index out of range). *)
Inductive halt := Returned | Exited | Panicked.

Inductive step (A : Type) := Next (a : A) | Halt (h : halt).
Arguments Next {A} a.
Arguments Halt {A} h.

(** The trace monad over a type [E] of events: the events emitted, and
    either a value or a halt. *)
Definition MT (E A : Type) : Type := list E * step A.

Definition M (A : Type) : Type := MT event A.

Definition ret {E A} (a : A) : MT E A := ([], Next a).

Definition bind {E A B} (m : MT E A) (k : A -> MT E B) : MT E B :=
  match m with
  | (tr, Next a) => let '(tr', r) := k a in (tr ++ tr', r)
  | (tr, Halt h) => (tr, Halt h)
  end.

Notation "x <- m ;; k" := (bind m (fun x => k)) (at level 61, m at next level, right associativity).
Notation "m ;; k" := (bind m (fun _ => k)) (at level 61, right associativity).

Definition emit {E} (e : E) : MT E unit := ([e], Next tt).

(** [return] out of the handler. *)
Definition return_ {E A} : MT E A := ([], Halt Returned).

(** [log.Fatalf]: the message is logged and the process exits. *)
Definition Fatalf {A} (msg : string) : M A := ([Log msg], Halt Exited).

Definition when {E} (b : bool) (m : MT E unit) : MT E unit := if b then m else ret tt.

(** [s[0]] on a slice: a panic when it is empty. *)
Definition index0 {E} (l : list string) : MT E string :=
  match l with
  | x :: _ => ret x
  | [] => ([], Halt Panicked)
  end.

(** The events of a run and how it ended; reaching the end of the function
    body is a normal return. *)
Definition run {E A} (m : MT E A) : list E * halt :=
  match m with
  | (tr, Next _) => (tr, Returned)
  | (tr, Halt h) => (tr, h)
  end.

(** ** Request verification (identical in [src/queue/queue.go] and [src/queue.go]) *)

Definition version : string := "v0".
Definition slackRequestTimestampHeader : string := "X-Slack-Request-Timestamp".
Definition slackSignatureHeader : string := "X-Slack-Signature".

Section Verify.

(** HMAC-SHA256 under a key, and the wall clock read by [time.Since]. *)
Variable hmac : string -> string -> list Z.
Variable now : Time.

(** [getSignature(base, secret)]. *)
Definition getSignature (base secret : string) : list Z := hmac secret base.

(** [time.Since(t)] is [time.Now().Sub(t)]. *)
Definition Since (t : Time) : Z := Sub now t.

(** [checkTimestamp]: [t.Minutes() <= 5].  [Minutes()] is
    [float64(d / Minute) + float64(d % Minute) / 60e9]; the float is at most
    5 exactly when [d <= 5 * Minute] (for [d / Minute = 5] and a positive
    remainder the sum exceeds 5 by at least [1/60e9], far above the rounding
    error at 5), so the comparison is made on the nanoseconds. *)
Definition checkTimestamp (timeStamp : Z) : bool * Z :=
  let t := Since (Unix timeStamp) in
  (t <=? 5 * Minute, t).

(** [verifyWebHook]: the verdict and the error, [None] for [nil]. *)
Definition verifyWebHook (r : Request) (slackSigningSecret : string) : bool * option string :=
  let timeStamp := header_get r slackRequestTimestampHeader in
  let slackSignature := header_get r slackSignatureHeader in
  match ParseInt timeStamp with
  | None => (false, Some ("strconv.ParseInt(" ++ timeStamp ++ ")")%string)
  | Some t =>
      let '(ageOk, _) := checkTimestamp t in
      if negb ageOk then (false, Some "checkTimestamp"%string)
      else if str_eqb timeStamp EmptyString || str_eqb slackSignature EmptyString then
        (false, Some "either timeStamp or signature headers were blank"%string)
      else
        let body := Body r in
        let baseString := (version ++ ":" ++ timeStamp ++ ":" ++ body)%string in
        let signature := getSignature baseString slackSigningSecret in
        let trimmed := TrimPrefix slackSignature (version ++ "=") in
        match DecodeString trimmed with
        | None => (false, Some ("hex.DecodeString(" ++ trimmed ++ ")")%string)
        | Some signatureInHeader => (hmac_Equal signature signatureInHeader, None)
        end
  end.

End Verify.

(** ** Dispatch (identical in both queue packages) *)

Section Publish.

(** The Pub/Sub side of a publish, given the configured project and topic. *)
Variable pubsub : queueMessage -> PubOutcome.

(** [publishMessage]: [json.Marshal] of two strings cannot fail; then the
    client is created, the message published and [result.Get] awaited. *)
Definition publishMessage (message : queueMessage) : M (option string) :=
  match pubsub message with
  | ClientError => ret (Some "unable to create pubsub client"%string)
  | PublishError =>
      emit (Publish message) ;; ret (Some "unable to get published result"%string)
  | Acked =>
      emit (Publish message) ;; emit (PublishAck message) ;; ret None
  end.

End Publish.

(** The legacy-prefix rewrite of both handlers:
    [if strings.HasPrefix(queryText, "search") { queryText = strings.TrimPrefix(queryText, "search ") }]. *)
Definition normalizeQuery (queryText : string) : string :=
  if HasPrefix queryText "search" then TrimPrefix queryText "search " else queryText.

Definition hangTight (queryText : string) : string :=
  ("Hang tight - gathering results for " ++ dq ++ queryText ++ dq ++ ".")%string.

(** [err != nil]. *)
Definition isSome {A} (o : option A) : bool := match o with Some _ => true | None => false end.

Definition is_nil {A} (l : list A) : bool := match l with [] => true | _ => false end.

(** ** [src/queue/queue.go] *)

Module queue.

Section Handler.

Variable hmac : string -> string -> list Z.
Variable now : Time.
Variable slackSigSecret slackChannelID : string.
Variable pubsub : queueMessage -> PubOutcome.

Definition wrongChannelText : string :=
  ("Anerbot needs to run in <#" ++ slackChannelID ++ ">, try again there! :broken_heart:")%string.

Definition emptyQueryText : string := "Unable search for an empty string! :this-is-fine:".

(** [Queue].  Writes to the [ResponseWriter] are taken to succeed, so the
    [log.Fatalf] after each [Encode] is never reached. *)
Definition Queue (r : Request) : M unit :=
  if negb (str_eqb (values_get (URL_Query r) "ping") EmptyString) then return_ else
  emit ReadBody ;;
  if negb (str_eqb (Method r) "POST") then
    emit (HttpError 405 "Only POST requests are accepted") ;; return_
  else
  let '(form, perr) := ParseForm r in
  when (isSome perr) (Fatalf "ParseForm") ;;
  let '(ok, err) := verifyWebHook hmac now r slackSigSecret in
  when (isSome err) (Fatalf "verifyWebhook") ;;
  when (negb ok) (Fatalf "unable to validate request: signatures did not match") ;;
  when (is_nil (values_lookup form "text")) (Fatalf "empty text in form") ;;
  emit (SetHeader "Content-Type" "application/json") ;;
  emit (WriteHeader 200) ;;
  channel <- index0 (values_lookup form "channel_id") ;;
  if negb (str_eqb channel slackChannelID) then
    emit (Encode {| ResponseType := "ephemeral"; Text := wrongChannelText |}) ;; return_
  else
  queryText <- index0 (values_lookup form "text") ;;
  if str_eqb queryText EmptyString then
    emit (Encode {| ResponseType := "ephemeral"; Text := emptyQueryText |}) ;; return_
  else
  let queryText := normalizeQuery queryText in
  responseUrl <- index0 (values_lookup form "response_url") ;;
  let message := {| Query := queryText; ResponseUrl := responseUrl |} in
  err <- publishMessage pubsub message ;;
  when (isSome err) (Fatalf "unable to publish message") ;;
  emit (Encode {| ResponseType := "ephemeral"; Text := hangTight queryText |}).

End Handler.

End queue.

(** ** [src/queue.go] *)

Module anerbot.

Section Handler.

Variable hmac : string -> string -> list Z.
Variable now : Time.
Variable slackSigSecret : string.
Variable pubsub : queueMessage -> PubOutcome.

(** [Queue]: [http.Error] on a non-POST method and on an empty query is not
    followed by a [return]; there is no channel check. *)
Definition Queue (r : Request) : M unit :=
  emit ReadBody ;;
  when (negb (str_eqb (Method r) "POST"))
    (emit (HttpError 405 "Only POST requests are accepted")) ;;
  let '(form, perr) := ParseForm r in
  when (isSome perr) (emit (HttpError 400 "Couldn't parse form") ;; Fatalf "ParseForm") ;;
  let '(ok, err) := verifyWebHook hmac now r slackSigSecret in
  when (isSome err) (Fatalf "verifyWebhook") ;;
  when (negb ok) (Fatalf "signatures did not match.") ;;
  when (is_nil (values_lookup form "text")) (Fatalf "empty text in form") ;;
  queryText <- index0 (values_lookup form "text") ;;
  when (str_eqb queryText EmptyString)
    (emit (HttpError 400 "Unable to search for an empty string")) ;;
  let queryText := normalizeQuery queryText in
  responseUrl <- index0 (values_lookup form "response_url") ;;
  let message := {| Query := queryText; ResponseUrl := responseUrl |} in
  err <- publishMessage pubsub message ;;
  when (isSome err) (Fatalf "unable to publish message") ;;
  emit (SetHeader "Content-Type" "application/json") ;;
  emit (WriteHeader 201) ;;
  emit (Encode {| ResponseType := "ephemeral"; Text := hangTight queryText |}).

End Handler.

End anerbot.

(** ** [src/response/response.go] *)

Module response.

Record featureFields := {
  Feature : string; Roadmap : string; TeamResponsible : string; Plan : string;
  FeatureFlag : string; Entitlements : string; Documentation : string
}.

Record feature := { AirtableID : string; Fields : featureFields }.

Record attachmentField := { FieldTitle : string; Value : string }.

Record attachment := {
  Title : string; Fallback : string; TitleLink : string; AttachmentFields : list attachmentField
}.

Record slackResponse := {
  ReplaceOriginal : string; ResponseType : string; Text : string; Attachments : list attachment
}.

Record PubSubMessage := { Data : string }.

(** The parameters handed to [client.ListRecords]. *)
Record ListParameters := {
  CellFormat : string; ListFields : list string; FilterByFormula : string;
  TimeZone : string; UserLocale : string; View : string
}.

Inductive revent :=
| Post (url : string) (payload : slackResponse)   (* client.Do on a JSON POST *)
| RLog (msg : string).

Definition RM (A : Type) : Type := MT revent A.

Definition RFatalf {A} (msg : string) : RM A := ([RLog msg], Halt Exited).

(** The effects of the local test handler [LocalResponse]. *)
Inductive levent :=
| LReadBody                                  (* ioutil.ReadAll(r.Body) *)
| LHttpError (code : Z) (msg : string)       (* http.Error(w, msg, code) *)
| LSetHeader (key value : string)            (* w.Header().Set *)
| LWriteHeader (code : Z)                    (* w.WriteHeader *)
| LEncode (res : slackResponse)              (* json.NewEncoder(w).Encode(res) *)
| LLog (msg : string).

Definition LM (A : Type) : Type := MT levent A.

Definition LFatalf {A} (msg : string) : LM A := ([LLog msg], Halt Exited).

Definition crlf : string := String "013"%char (String "010"%char EmptyString).

Fixpoint digits_rev (fuel : nat) (n : Z) : string :=
  match fuel with
  | O => EmptyString
  | S f =>
      let d := String (ascii_of_nat (48 + Z.to_nat (n mod 10))) EmptyString in
      if n <? 10 then d else (digits_rev f (n / 10) ++ d)%string
  end.

(** [fmt.Sprintf("%d", n)] for a length. *)
Definition itoa (n : nat) : string := digits_rev (S n) (Z.of_nat n).

Definition fields : list string :=
  ["Feature"; "Roadmap"; "Team responsible"; "Plan"; "Feature flag"; "Entitlements"; "Documentation"]%string.

Definition failureText : string := "Failed to fetch records from Airtable :sob:".
Definition noItemsText : string := "No items found, try another search term".

Section Consumer.

Variable airtableTableID airtableViewID : string.
(** [airtable.New(apiKey, baseID)] succeeded, and [client.ListRecords]:
    the records, or [None] on an error. *)
Variable airtableNewOk : bool.
Variable ListRecords : string -> ListParameters -> option (list feature).
(** [json.Unmarshal] of the Pub/Sub data into a [queueMessage]. *)
Variable Unmarshal : string -> option queueMessage.
(** [http.NewRequest("POST", url, ...)] accepts the URL. *)
Variable NewRequestOk : string -> bool.
(** [client.Do] on a POST of the payload to the URL returns no error. *)
Variable DoOk : string -> slackResponse -> bool.

Fixpoint join (sep : string) (l : list string) : string :=
  match l with
  | [] => EmptyString
  | [x] => x
  | x :: l' => (x ++ sep ++ join sep l')%string
  end.

(** [queryAirtable]. *)
Definition queryAirtable (query : string) : option (list feature) :=
  if negb airtableNewOk then None else
  let query := ToLower query in
  let searchStatements :=
    map (fun v => ("SEARCH('" ++ query ++ "', LOWER({" ++ v ++ "})) > 0")%string) fields in
  let formula := ("OR(" ++ join ", " searchStatements ++ ")")%string in
  let listParams := {| CellFormat := "string"; ListFields := fields; FilterByFormula := formula;
                       TimeZone := "American/Boston"; UserLocale := "en-US"; View := airtableViewID |} in
  ListRecords airtableTableID listParams.

Definition line_if (label v : string) : string :=
  if str_eqb v EmptyString then EmptyString else (label ++ v ++ crlf)%string.

Definition attachment_of (v : feature) : attachment :=
  let link := ("https://airtable.com/" ++ airtableTableID ++ "/" ++ airtableViewID ++ "/" ++ AirtableID v)%string in
  let f := Fields v in
  let value :=
    (line_if ":sparkles: *Roadmap:* " (Roadmap f) ++
     line_if ":one-team: *Team(s):* " (TeamResponsible f) ++
     line_if ":moneybag: *Plan:* " (Plan f) ++
     line_if ":triangular_flag_on_post: *Feature Flag:* " (FeatureFlag f) ++
     line_if ":crown: *Entitlements:* " (Entitlements f) ++
     line_if ":books: *Documentation:* " (Documentation f))%string in
  let fallback := (Feature f ++ ": " ++ link)%string in
  {| Title := Feature f; Fallback := fallback; TitleLink := link;
     AttachmentFields := [{| FieldTitle := EmptyString; Value := value |}] |}.

(** [buildSlackResponse] (its error result is always [nil]). *)
Definition buildSlackResponse (f : list feature) : slackResponse :=
  let text :=
    match f with
    | [] => noItemsText
    | _ => ("Found " ++ itoa (length f) ++ " items! Click on any result to learn more.")%string
    end in
  {| ReplaceOriginal := "true"; ResponseType := "ephemeral"; Text := text;
     Attachments := map attachment_of f |}.

(** [sendFailureMessage]. *)
Definition sendFailureMessage (url : string) : RM unit :=
  let message := {| ReplaceOriginal := EmptyString; ResponseType := "ephemeral";
                    Text := failureText; Attachments := [] |} in
  when (negb (NewRequestOk url)) (RFatalf "unable to build new HTTP request") ;;
  emit (Post url message) ;;
  when (negb (DoOk url message)) (RFatalf "unable to send message to Slack").

(** [Response]: the returned Go error, [None] for [nil]. *)
Definition Response (m : PubSubMessage) : RM (option string) :=
  match Unmarshal (Data m) with
  | None => ret (Some "could not unmarshal message"%string)
  | Some message =>
      match queryAirtable (Query message) with
      | None =>
          sendFailureMessage (ResponseUrl message) ;;
          ret (Some "error querying Airtable"%string)
      | Some atr =>
          let res := buildSlackResponse atr in
          if negb (NewRequestOk (ResponseUrl message)) then
            ret (Some "unable to build new HTTP request"%string)
          else
            emit (Post (ResponseUrl message) res) ;;
            if DoOk (ResponseUrl message) res then ret None
            else ret (Some "unable to send message to Slack"%string)
      end
  end.

(** [LocalResponse]: the handler used for local testing, which queries
    Airtable and answers synchronously.  [http.Error] on a non-POST method
    is not followed by a [return]; writes are taken to succeed. *)
Definition LocalResponse (r : Request) : LM unit :=
  emit LReadBody ;;
  when (negb (str_eqb (Method r) "POST"))
    (emit (LHttpError 405 "Only POST requests are accepted")) ;;
  let '(form, perr) := ParseForm r in
  when (isSome perr) (emit (LHttpError 400 "Couldn't parse form") ;; LFatalf "ParseForm") ;;
  queryText <- index0 (values_lookup form "text") ;;
  let queryText := normalizeQuery queryText in
  match queryAirtable queryText with
  | None => LFatalf "error querying Airtable"
  | Some atr =>
      let res := buildSlackResponse atr in
      emit (LSetHeader "Content-Type" "application/json") ;;
      emit (LWriteHeader 200) ;;
      emit (LEncode res)
  end.

End Consumer.

End response.

(** ** Concrete inputs

    A signing secret, a clock reading and signed Slack slash-command
    requests (the signatures are HMAC-SHA256 values of [v0:ts:body]). *)

Module Samples.

Definition secret : string := "8f742231b10e8888abcd99yyyzzz85a5".
Definition channel : string := "C1".

(** Unix second 1531420618, as a [time.Time]. *)
Definition now : Time := {| ext := 1531420618 + unixToInternal; nsec := 0 |}.

Definition signed (ts sig body : string) : Request := {|
  Method := "POST"; RawQuery := EmptyString;
  Header := [("Content-Type", "application/x-www-form-urlencoded");
             ("X-Slack-Request-Timestamp", ts); ("X-Slack-Signature", "v0=" ++ sig)]%string;
  Body := body |}.

Definition url : string := "https://hooks.slack.com/a".

(** [/feat search golang] from the allowed channel. *)
Definition golang : Request :=
  signed "1531420618" "aff3f2b82522c2be3ec726d3d54748bf31af79637bfd2729a2a27c281f4d6da3"
    "token=x&channel_id=C1&text=search+golang&response_url=https%3A%2F%2Fhooks.slack.com%2Fa".

(** The same body, correctly signed, stamped 1000 seconds after [now]. *)
Definition future : Request :=
  signed "1531421618" "8a4f50af8d6f28f58e29f18436104fda151d45af85a61f428989e33ed569ca47"
    "token=x&channel_id=C1&text=search+golang&response_url=https%3A%2F%2Fhooks.slack.com%2Fa".

(** [text] is exactly [search ]. *)
Definition search_space : Request :=
  signed "1531420618" "7a786b1f6e40c19382c146bf8e807f5e90f4a6a17aadd2a42cc8611225fff229"
    "channel_id=C1&text=search+&response_url=https%3A%2F%2Fhooks.slack.com%2Fa".

(** [text] is empty. *)
Definition empty_text : Request :=
  signed "1531420618" "50b8053862f1d53b69c081f975878bca9dcd8ffb8e7b1e4534833025ff45a396"
    "channel_id=C1&text=&response_url=https%3A%2F%2Fhooks.slack.com%2Fa".

(** No [channel_id] field. *)
Definition no_channel : Request :=
  signed "1531420618" "0c6c4526475058620dc1916e6d6437da1c6103bafdd8b2572e62b054eb0ad913"
    "text=golang&response_url=https%3A%2F%2Fhooks.slack.com%2Fa".

(** No [response_url] field. *)
Definition no_url : Request :=
  signed "1531420618" "77c9db4e432c98103cd3736238254374104c701f1bf25914b489c7e1accc5dcd"
    "channel_id=C1&text=golang".

(** The body of [golang] under a wrong signature. *)
Definition bad_signature : Request :=
  signed "1531420618" "0000000000000000000000000000000000000000000000000000000000000000"
    "token=x&channel_id=C1&text=search+golang&response_url=https%3A%2F%2Fhooks.slack.com%2Fa".

(** A non-numeric timestamp. *)
Definition bad_timestamp : Request :=
  signed "yesterday" "aff3f2b82522c2be3ec726d3d54748bf31af79637bfd2729a2a27c281f4d6da3"
    "token=x&channel_id=C1&text=search+golang&response_url=https%3A%2F%2Fhooks.slack.com%2Fa".

(** A keep-warm call: [GET ?ping=1] with neither headers nor body. *)
Definition ping : Request :=
  {| Method := "GET"; RawQuery := "ping=1"; Header := []; Body := EmptyString |}.

(** A signed GET with an empty body whose URL query carries the form. *)
Definition signed_get : Request := {|
  Method := "GET";
  RawQuery := "channel_id=C1&text=golang&response_url=https%3A%2F%2Fhooks.slack.com%2Fa";
  Header := [("X-Slack-Request-Timestamp", "1531420618");
             ("X-Slack-Signature",
              "v0=55f41ec73231010289b54e669149ea021fccab11b5524355523533ce930cb739")]%string;
  Body := EmptyString |}.

(** A signed body without [response_url]; the URL query supplies one. *)
Definition url_from_query : Request := {|
  Method := "POST";
  RawQuery := "response_url=https%3A%2F%2Fattacker.example%2Fx";
  Header := [("Content-Type", "application/x-www-form-urlencoded");
             ("X-Slack-Request-Timestamp", "1531420618");
             ("X-Slack-Signature",
              "v0=4d656886516d03152d001e07f8d6422cefc87e5a5e4b676cd6d8f784759d6ec0")]%string;
  Body := "token=x&channel_id=C1&text=golang" |}.

(** No [text] field. *)
Definition no_text : Request :=
  signed "1531420618" "fd1ec6532da34eada9a20bf6938b8b6ef63a0b91733e8bd6862e76ace90e33bc"
    "channel_id=C1&response_url=https%3A%2F%2Fhooks.slack.com%2Fa".

(** A body with a malformed percent escape. *)
Definition bad_form : Request := signed "1531420618" EmptyString "text=%zz".

(** [golang] with its signature header sent without the [v0=] prefix. *)
Definition unprefixed : Request := {|
  Method := "POST"; RawQuery := EmptyString;
  Header := [("Content-Type", "application/x-www-form-urlencoded");
             ("X-Slack-Request-Timestamp", "1531420618");
             ("X-Slack-Signature",
              "aff3f2b82522c2be3ec726d3d54748bf31af79637bfd2729a2a27c281f4d6da3")]%string;
  Body := Body golang |}.

(** Two Airtable records, one with every optional field empty. *)
Definition sso : response.feature := {|
  response.AirtableID := "recSSO";
  response.Fields := {| response.Feature := "SSO"; response.Roadmap := "Q3";
                        response.TeamResponsible := "Identity"; response.Plan := "Enterprise";
                        response.FeatureFlag := EmptyString; response.Entitlements := EmptyString;
                        response.Documentation := "https://docs.example/sso" |} |}.

Definition bare : response.feature := {|
  response.AirtableID := "recBare";
  response.Fields := {| response.Feature := "Bare"; response.Roadmap := EmptyString;
                        response.TeamResponsible := EmptyString; response.Plan := EmptyString;
                        response.FeatureFlag := EmptyString; response.Entitlements := EmptyString;
                        response.Documentation := EmptyString |} |}.

Definition table : string := "tblF".
Definition view : string := "viwA".

(** An unsigned form POST carrying only a query. *)
Definition unsigned : Request := {|
  Method := "POST"; RawQuery := EmptyString;
  Header := [("Content-Type", "application/x-www-form-urlencoded")]%string;
  Body := "text=search+SSO" |}.

(** An Airtable that answers every query with [sso]. *)
Definition airtable_sso (_ : string) (_ : response.ListParameters) : option (list response.feature) :=
  Some [sso].

Definition acked (_ : queueMessage) : PubOutcome := Acked.
Definition failing (_ : queueMessage) : PubOutcome := PublishError.

End Samples.

(** * Properties *)

(** ** Test vectors of the digest functions *)

Example sha256_abc : SHA256.hash (bytes_of_string "abc") =
  [186; 120; 22; 191; 143; 1; 207; 234; 65; 65; 64; 222; 93; 174; 34; 35;
   176; 3; 97; 163; 150; 23; 122; 156; 180; 16; 255; 97; 242; 0; 21; 173].
Proof. vm_compute. reflexivity. Qed.

Example hmac_sha256_fox :
  hmac_sha256 "key" "The quick brown fox jumps over the lazy dog" =
  [247; 188; 131; 244; 48; 83; 132; 36; 177; 50; 152; 230; 170; 111; 177; 67;
   239; 77; 89; 161; 73; 70; 23; 89; 151; 71; 157; 188; 45; 26; 60; 216].
Proof. vm_compute. reflexivity. Qed.


(** ** String and comparison facts *)

Lemma str_eqb_true (a b : string) : str_eqb a b = true <-> a = b.
Proof. apply String.eqb_eq. Qed.

Lemma str_eqb_refl (a : string) : str_eqb a a = true.
Proof. apply String.eqb_refl. Qed.

Lemma hmac_Equal_true (a b : list Z) : hmac_Equal a b = true <-> a = b.
Proof.
  revert b; induction a as [|x a IH]; intros [|y b]; simpl; split; intro H;
    try discriminate; try reflexivity.
  - apply andb_true_iff in H as [Hxy Hab].
    apply Z.eqb_eq in Hxy; apply IH in Hab; subst; reflexivity.
  - injection H as -> ->. rewrite Z.eqb_refl. simpl. apply IH. reflexivity.
Qed.

Lemma HasPrefix_app (s p q : string) :
  HasPrefix s (p ++ q) = true -> HasPrefix s p = true.
Proof.
  revert s; induction p as [|c p IH]; intros s H; [reflexivity|].
  destruct s as [|d s]; simpl in *; [discriminate|].
  apply andb_true_iff in H as [Hc Hs]. rewrite Hc. simpl. exact (IH s Hs).
Qed.

Lemma HasPrefix_decomp (s p : string) :
  HasPrefix s p = true -> s = (p ++ skip (String.length p) s)%string.
Proof.
  revert s; induction p as [|c p IH]; intros s H; [reflexivity|].
  destruct s as [|d s]; simpl in *; [discriminate|].
  apply andb_true_iff in H as [Hc Hs]. apply Ascii.eqb_eq in Hc. subst d.
  f_equal. exact (IH s Hs).
Qed.

Lemma length_app (a b : string) : String.length (a ++ b) = (String.length a + String.length b)%nat.
Proof. induction a as [|c a IH]; simpl; [reflexivity|]. rewrite IH. reflexivity. Qed.

(** ** Query normalisation *)

Lemma normalizeQuery_strip (q : string) :
  normalizeQuery q = if HasPrefix q "search " then skip 7 q else q.
Proof.
  unfold normalizeQuery, TrimPrefix.
  destruct (HasPrefix q "search ") eqn:H7.
  - replace (HasPrefix q "search") with true; [reflexivity|].
    symmetry. apply (HasPrefix_app q "search" " "). exact H7.
  - destruct (HasPrefix q "search"); reflexivity.
Qed.

(** C7 (amended).  Normalisation removes one leading [search ] at most, so
    normalising twice agrees with normalising once exactly when the
    once-normalised query does not itself begin with [search ]. *)
Theorem normalizeQuery_idempotent_iff (q : string) :
  normalizeQuery (normalizeQuery q) = normalizeQuery q <->
  HasPrefix (normalizeQuery q) "search " = false.
Proof.
  set (r := normalizeQuery q).
  rewrite (normalizeQuery_strip r).
  destruct (HasPrefix r "search ") eqn:H; split; intro E; try reflexivity.
  - exfalso. pose proof (HasPrefix_decomp r "search " H) as D.
    assert (L : String.length r = (7 + String.length (skip 7 r))%nat).
    { rewrite D at 1. rewrite length_app. reflexivity. }
    rewrite E in L. lia.
  - discriminate.
Qed.

(** C7.  Normalising [search search golang] once gives [search golang],
    twice gives [golang]: normalisation is not idempotent. *)
Lemma normalizeQuery_not_idempotent :
  normalizeQuery "search search golang" = "search golang"%string /\
  normalizeQuery (normalizeQuery "search search golang") = "golang"%string.
Proof. split; reflexivity. Qed.

(** ** Signature verification *)

(** C1 (amended).  [verifyWebHook] accepts exactly when the timestamp header
    is a decimal [int64] [t], the time elapsed since [t] is at most five
    minutes (a one-sided bound: a timestamp in the future passes it, unless
    [t + unixToInternal] overflows an [int64] and [time.Unix] wraps it far
    into the past), the
    signature header is not blank, and that header, without a leading [v0=],
    hex-decodes to the HMAC-SHA256 of [v0:timestamp:body] under the secret. *)
Theorem verifyWebHook_accepts_iff hmac now (r : Request) (secret : string) :
  verifyWebHook hmac now r secret = (true, None) <->
  exists t sig,
    ParseInt (header_get r slackRequestTimestampHeader) = Some t /\
    Since now (Unix t) <= 5 * Minute /\
    header_get r slackSignatureHeader <> EmptyString /\
    DecodeString (TrimPrefix (header_get r slackSignatureHeader) "v0=") = Some sig /\
    sig = hmac secret ("v0:" ++ header_get r slackRequestTimestampHeader ++ ":" ++ Body r)%string.
Proof.
  unfold verifyWebHook, checkTimestamp, getSignature.
  set (ts := header_get r slackRequestTimestampHeader).
  set (sg := header_get r slackSignatureHeader).
  split.
  - intro E.
    destruct (ParseInt ts) as [t|] eqn:Ht; [|discriminate E].
    destruct (Since now (Unix t) <=? 5 * Minute) eqn:Ha; simpl in E; [|discriminate E].
    destruct (str_eqb ts EmptyString || str_eqb sg EmptyString) eqn:Hb; [discriminate E|].
    destruct (DecodeString (TrimPrefix sg "v0=")) as [sig|] eqn:Hd; [|discriminate E].
    injection E as E.
    apply orb_false_iff in Hb as [_ Hs].
    exists t, sig.
    split; [reflexivity|]. split; [apply Z.leb_le; exact Ha|].
    split; [intro C; rewrite C in Hs; discriminate Hs|].
    split; [reflexivity|].
    symmetry. apply hmac_Equal_true. exact E.
  - intros (t & sig & Ht & Ha & Hs & Hd & Hsig).
    rewrite Ht. apply Z.leb_le in Ha. rewrite Ha. simpl.
    assert (Hts : str_eqb ts EmptyString = false).
    { destruct ts; [discriminate|reflexivity]. }
    assert (Hsg : str_eqb sg EmptyString = false).
    { apply String.eqb_neq. exact Hs. }
    rewrite Hts, Hsg. simpl. fold sg. change (version ++ "=")%string with "v0="%string.
    rewrite Hd. rewrite Hsig. f_equal. apply hmac_Equal_true. reflexivity.
Qed.

(** C1.  A correctly signed request stamped 1000 seconds after the current
    time is accepted: future timestamps are not rejected. *)
Lemma verifyWebHook_accepts_future_timestamp :
  verifyWebHook hmac_sha256 Samples.now Samples.future Samples.secret = (true, None) /\
  ParseInt (header_get Samples.future slackRequestTimestampHeader) = Some 1531421618 /\
  1531421618 - 1531420618 > 300.
Proof. vm_compute. repeat split; reflexivity. Qed.

(** ** The keep-warm ping *)

(** C9.  A request whose URL query has a non-empty [ping] value makes the
    [src/queue/queue.go] handler return at once: nothing is read, written
    or published, whatever the method, headers and body ([net/http] then
    sends an empty [200 OK]). *)
Theorem queue_ping_returns_immediately hmac now secret chan pubsub (r : Request)
  (Hping : values_get (URL_Query r) "ping" <> EmptyString) :
  run (queue.Queue hmac now secret chan pubsub r) = ([], Returned).
Proof.
  unfold queue.Queue.
  destruct (str_eqb (values_get (URL_Query r) "ping") EmptyString) eqn:E.
  - apply str_eqb_true in E. contradiction.
  - reflexivity.
Qed.

Lemma queue_ping_returns_immediately_witness :
  values_get (URL_Query Samples.ping) "ping" <> EmptyString /\
  run (queue.Queue hmac_sha256 Samples.now Samples.secret Samples.channel Samples.acked Samples.ping)
  = ([], Returned).
Proof.
  split.
  - vm_compute. discriminate.
  - apply queue_ping_returns_immediately. vm_compute. discriminate.
Defined.

(** ** Rejected authentication *)

(** C2 (amended).  When the form parses but [verifyWebHook] does not accept
    the request, nothing is published and the process ends through
    [log.Fatalf] after logging.  In [src/queue/queue.go] this concerns a POST
    without [ping] (other requests return before verification) and nothing
    is written to the caller; in [src/queue.go] it concerns every method, and
    the only reply written is the 405 for a method other than POST. *)
Theorem queue_auth_failure_exits hmac now secret chan pubsub (r : Request) form
  (Hform : ParseForm r = (form, None))
  (Hbad : fst (verifyWebHook hmac now r secret) = false) :
  (values_get (URL_Query r) "ping" = EmptyString -> Method r = "POST"%string ->
   exists msg, run (queue.Queue hmac now secret chan pubsub r) = ([ReadBody; Log msg], Exited)) /\
  (exists msg, run (anerbot.Queue hmac now secret pubsub r) =
     ([ReadBody] ++
      (if str_eqb (Method r) "POST" then [] else [HttpError 405 "Only POST requests are accepted"]) ++
      [Log msg], Exited)).
Proof.
  split.
  - intros Hping Hpost. unfold queue.Queue. rewrite Hping, Hpost, Hform.
    destruct (verifyWebHook hmac now r secret) as [ok err]; simpl in Hbad; subst ok.
    destruct err; simpl; eexists; reflexivity.
  - unfold anerbot.Queue.
    destruct (str_eqb (Method r) "POST"); simpl; rewrite Hform;
      destruct (verifyWebHook hmac now r secret) as [ok err]; simpl in Hbad; subst ok;
      destruct err; simpl; eexists; reflexivity.
Qed.

Lemma queue_auth_failure_exits_witness :
  (exists msg, run (queue.Queue hmac_sha256 Samples.now Samples.secret Samples.channel
                      Samples.acked Samples.bad_signature) = ([ReadBody; Log msg], Exited)) /\
  (exists msg, run (anerbot.Queue hmac_sha256 Samples.now Samples.secret
                      Samples.acked Samples.bad_signature) = ([ReadBody] ++ [] ++ [Log msg], Exited)).
Proof.
  destruct (queue_auth_failure_exits hmac_sha256 Samples.now Samples.secret Samples.channel
              Samples.acked Samples.bad_signature (fst (ParseForm Samples.bad_signature))
              ltac:(vm_compute; reflexivity) ltac:(vm_compute; reflexivity)) as [Hq Ha].
  split; [exact (Hq eq_refl eq_refl) | exact Ha].
Defined.

(** C2.  A request with a non-numeric timestamp, and one with a wrong
    signature, end the process (exit through [log.Fatalf]) instead of
    returning from the handler. *)
Lemma queue_auth_failure_aborts :
  run (queue.Queue hmac_sha256 Samples.now Samples.secret Samples.channel Samples.acked
         Samples.bad_timestamp) = ([ReadBody; Log "verifyWebhook"], Exited) /\
  run (queue.Queue hmac_sha256 Samples.now Samples.secret Samples.channel Samples.acked
         Samples.bad_signature)
  = ([ReadBody; Log "unable to validate request: signatures did not match"], Exited) /\
  run (anerbot.Queue hmac_sha256 Samples.now Samples.secret Samples.acked
         Samples.bad_timestamp) = ([ReadBody; Log "verifyWebhook"], Exited).
Proof. vm_compute. repeat split. Qed.

(** ** The acknowledgement and the publish *)

(** C3 (amended).  On a signed, well-formed POST from the allowed channel
    with a non-empty [text], [src/queue/queue.go] writes the [200] status
    header before publishing and encodes [Hang tight] only after the publish
    is acknowledged; [src/queue.go] writes its [201] status and [Hang tight]
    only after the acknowledgement.  When [publishMessage] fails, neither
    sends [Hang tight] nor any error reply: both log and exit the process. *)
Theorem queue_publish_then_ack hmac now secret chan pubsub (r : Request) form q qs c cs u us
  (Hping : values_get (URL_Query r) "ping" = EmptyString)
  (Hpost : Method r = "POST"%string)
  (Hform : ParseForm r = (form, None))
  (Hver : verifyWebHook hmac now r secret = (true, None))
  (Htext : values_lookup form "text" = q :: qs)
  (Hq : q <> EmptyString)
  (Hchan : values_lookup form "channel_id" = c :: cs)
  (Hc : c = chan)
  (Hurl : values_lookup form "response_url" = u :: us) :
  let m := {| Query := normalizeQuery q; ResponseUrl := u |} in
  let hang := {| ResponseType := "ephemeral"; Text := hangTight (normalizeQuery q) |} in
  (pubsub m = Acked ->
     run (queue.Queue hmac now secret chan pubsub r) =
       ([ReadBody; SetHeader "Content-Type" "application/json"; WriteHeader 200;
         Publish m; PublishAck m; Encode hang], Returned) /\
     run (anerbot.Queue hmac now secret pubsub r) =
       ([ReadBody; Publish m; PublishAck m;
         SetHeader "Content-Type" "application/json"; WriteHeader 201; Encode hang], Returned)) /\
  (pubsub m <> Acked ->
     run (queue.Queue hmac now secret chan pubsub r) =
       ([ReadBody; SetHeader "Content-Type" "application/json"; WriteHeader 200] ++
        fst (publishMessage pubsub m) ++ [Log "unable to publish message"], Exited) /\
     run (anerbot.Queue hmac now secret pubsub r) =
       ([ReadBody] ++ fst (publishMessage pubsub m) ++ [Log "unable to publish message"], Exited)).
Proof.
  intros m hang. subst c.
  assert (Hqe : str_eqb q EmptyString = false) by (apply String.eqb_neq; exact Hq).
  unfold queue.Queue, anerbot.Queue.
  rewrite Hping, Hpost, Hform, Hver. simpl.
  rewrite Htext, Hchan, Hurl. simpl. rewrite str_eqb_refl, Hqe. simpl.
  fold m. unfold publishMessage.
  split; intro Hp.
  - rewrite Hp. split; reflexivity.
  - destruct (pubsub m); [split; reflexivity | split; reflexivity | contradiction].
Qed.

Lemma queue_publish_then_ack_witness :
  let m := {| Query := "golang"; ResponseUrl := Samples.url |} in
  let hang := {| ResponseType := "ephemeral"; Text := hangTight "golang" |} in
  run (queue.Queue hmac_sha256 Samples.now Samples.secret Samples.channel Samples.acked Samples.golang) =
    ([ReadBody; SetHeader "Content-Type" "application/json"; WriteHeader 200;
      Publish m; PublishAck m; Encode hang], Returned) /\
  run (queue.Queue hmac_sha256 Samples.now Samples.secret Samples.channel Samples.failing Samples.golang) =
    ([ReadBody; SetHeader "Content-Type" "application/json"; WriteHeader 200;
      Publish m; Log "unable to publish message"], Exited).
Proof.
  split.
  - refine (proj1 (proj1 (queue_publish_then_ack hmac_sha256 Samples.now Samples.secret
      Samples.channel Samples.acked Samples.golang (fst (ParseForm Samples.golang))
      "search golang" [] "C1" [] Samples.url [] _ _ _ _ _ _ _ _ _) _));
      vm_compute; try reflexivity; discriminate.
  - refine (proj1 (proj2 (queue_publish_then_ack hmac_sha256 Samples.now Samples.secret
      Samples.channel Samples.failing Samples.golang (fst (ParseForm Samples.golang))
      "search golang" [] "C1" [] Samples.url [] _ _ _ _ _ _ _ _ _) _));
      vm_compute; try reflexivity; discriminate.
Defined.

(** C3.  For the request [golang], [src/queue/queue.go] writes its success
    status ([WriteHeader 200]) before it publishes the message, let alone
    before the publish is acknowledged. *)
Lemma queue_status_before_publish :
  exists m res,
    run (queue.Queue hmac_sha256 Samples.now Samples.secret Samples.channel Samples.acked Samples.golang)
    = ([ReadBody; SetHeader "Content-Type" "application/json"; WriteHeader 200;
        Publish m; PublishAck m; Encode res], Returned).
Proof. eexists; eexists. vm_compute. reflexivity. Qed.

(** ** The channel restriction *)

(** C4.  The channel restriction is missing from [src/queue.go]: its
    [init] loads [SLACK_CHANNEL_ID] into [slackChannelID], which [Queue]
    never reads.  With channel [C2] configured, the signed request [golang]
    sent from channel [C1] is turned away by the handler of
    [src/queue/queue.go] with the message naming [C2], while the handler of
    [src/queue.go] publishes it and answers [Hang tight]. *)
Theorem wrong_channel_check_missing :
  values_lookup (fst (ParseForm Samples.golang)) "channel_id" = ["C1"%string] /\
  run (queue.Queue hmac_sha256 Samples.now Samples.secret "C2" Samples.acked Samples.golang) =
    ([ReadBody; SetHeader "Content-Type" "application/json"; WriteHeader 200;
      Encode {| ResponseType := "ephemeral";
                Text := "Anerbot needs to run in <#C2>, try again there! :broken_heart:" |}],
     Returned) /\
  run (anerbot.Queue hmac_sha256 Samples.now Samples.secret Samples.acked Samples.golang) =
    ([ReadBody; Publish {| Query := "golang"; ResponseUrl := Samples.url |};
      PublishAck {| Query := "golang"; ResponseUrl := Samples.url |};
      SetHeader "Content-Type" "application/json"; WriteHeader 201;
      Encode {| ResponseType := "ephemeral"; Text := hangTight "golang" |}], Returned).
Proof. vm_compute. repeat split. Qed.

(** ** Empty queries *)

(** C5.  Empty queries reach the queue: in [src/queue/queue.go] the text
    [search ] passes the emptiness check and is normalised to the empty
    query, which is published; in [src/queue.go] an empty text gets an
    [http.Error] without a [return], and the empty query is published
    and acknowledged with [Hang tight]. *)
Theorem empty_query_published :
  let m := {| Query := EmptyString; ResponseUrl := Samples.url |} in
  let hang := {| ResponseType := "ephemeral"; Text := hangTight EmptyString |} in
  values_lookup (fst (ParseForm Samples.search_space)) "text" = ["search "%string] /\
  run (queue.Queue hmac_sha256 Samples.now Samples.secret Samples.channel Samples.acked
         Samples.search_space) =
    ([ReadBody; SetHeader "Content-Type" "application/json"; WriteHeader 200;
      Publish m; PublishAck m; Encode hang], Returned) /\
  values_lookup (fst (ParseForm Samples.empty_text)) "text" = [EmptyString] /\
  run (anerbot.Queue hmac_sha256 Samples.now Samples.secret Samples.acked Samples.empty_text) =
    ([ReadBody; HttpError 400 "Unable to search for an empty string"; Publish m; PublishAck m;
      SetHeader "Content-Type" "application/json"; WriteHeader 201; Encode hang], Returned).
Proof. vm_compute. repeat split. Qed.

(** ** Missing form fields *)

(** C10.  Signed POSTs whose form lacks [channel_id] or [response_url] make
    the indexing [r.Form[...][0]] panic: [src/queue/queue.go] panics after
    writing the [200] status header, [src/queue.go] after the body read;
    no rejection is encoded. *)
Theorem missing_field_panics :
  verifyWebHook hmac_sha256 Samples.now Samples.no_channel Samples.secret = (true, None) /\
  snd (ParseForm Samples.no_channel) = None /\
  values_lookup (fst (ParseForm Samples.no_channel)) "channel_id" = [] /\
  run (queue.Queue hmac_sha256 Samples.now Samples.secret Samples.channel Samples.acked
         Samples.no_channel) =
    ([ReadBody; SetHeader "Content-Type" "application/json"; WriteHeader 200], Panicked) /\
  verifyWebHook hmac_sha256 Samples.now Samples.no_url Samples.secret = (true, None) /\
  snd (ParseForm Samples.no_url) = None /\
  values_lookup (fst (ParseForm Samples.no_url)) "response_url" = [] /\
  run (queue.Queue hmac_sha256 Samples.now Samples.secret Samples.channel Samples.acked
         Samples.no_url) =
    ([ReadBody; SetHeader "Content-Type" "application/json"; WriteHeader 200], Panicked) /\
  run (anerbot.Queue hmac_sha256 Samples.now Samples.secret Samples.acked Samples.no_url) =
    ([ReadBody], Panicked).
Proof. vm_compute. repeat split. Qed.

(** ** The consumer's failure report *)

(** C6 (amended).  When the Pub/Sub message decodes and the Airtable lookup
    fails, [Response] posts the fixed failure payload to the message's
    [response_url] and returns the error [error querying Airtable]; but when
    that callback request cannot be built, or [client.Do] fails,
    [sendFailureMessage] calls [log.Fatalf] and the process exits. *)
Theorem response_lookup_failure tid vid newOk listRecords unmarshal newRequestOk doOk
  (m : response.PubSubMessage) (msg : queueMessage)
  (Hun : unmarshal (response.Data m) = Some msg)
  (Hlookup : response.queryAirtable tid vid newOk listRecords (Query msg) = None) :
  let fail := {| response.ReplaceOriginal := EmptyString; response.ResponseType := "ephemeral";
                 response.Text := response.failureText; response.Attachments := [] |} in
  response.Response tid vid newOk listRecords unmarshal newRequestOk doOk m =
    if newRequestOk (ResponseUrl msg) then
      if doOk (ResponseUrl msg) fail
      then ([response.Post (ResponseUrl msg) fail], Next (Some "error querying Airtable"%string))
      else ([response.Post (ResponseUrl msg) fail;
             response.RLog "unable to send message to Slack"], Halt Exited)
    else ([response.RLog "unable to build new HTTP request"], Halt Exited).
Proof.
  intro fail. unfold response.Response. rewrite Hun, Hlookup.
  unfold response.sendFailureMessage. fold fail.
  destruct (newRequestOk (ResponseUrl msg)); simpl; [|reflexivity].
  destruct (doOk (ResponseUrl msg) fail); reflexivity.
Qed.

Lemma response_lookup_failure_witness :
  response.Response "tbl" "viw" false (fun _ _ => None)
    (fun _ => Some {| Query := "golang"; ResponseUrl := Samples.url |})
    (fun _ => true) (fun _ _ => true) {| response.Data := "{}" |} =
  ([response.Post Samples.url
      {| response.ReplaceOriginal := EmptyString; response.ResponseType := "ephemeral";
         response.Text := response.failureText; response.Attachments := [] |}],
   Next (Some "error querying Airtable"%string)).
Proof.
  apply (response_lookup_failure "tbl" "viw" false (fun _ _ => None)
           (fun _ => Some {| Query := "golang"; ResponseUrl := Samples.url |})
           (fun _ => true) (fun _ _ => true) {| response.Data := "{}" |}
           {| Query := "golang"; ResponseUrl := Samples.url |});
    reflexivity.
Defined.

(** C6.  If Airtable cannot be reached and the failure callback's
    [client.Do] fails too, the consumer process exits through [log.Fatalf]. *)
Lemma response_callback_failure_aborts :
  run (response.Response "tbl" "viw" false (fun _ _ => None)
         (fun _ => Some {| Query := "golang"; ResponseUrl := Samples.url |})
         (fun _ => true) (fun _ _ => false) {| response.Data := "{}" |}) =
  ([response.Post Samples.url
      {| response.ReplaceOriginal := EmptyString; response.ResponseType := "ephemeral";
         response.Text := response.failureText; response.Attachments := [] |};
    response.RLog "unable to send message to Slack"], Exited).
Proof. reflexivity. Qed.

(** * Further properties of the handlers *)

(** Case analysis on the tests a handler run goes through, following a
    hypothesis about its events. *)
Ltac split_in H ps :=
  repeat (simpl in H; first
   [ contradiction
   | match type of H with context [str_eqb ?a ?b] => destruct (str_eqb a b) eqn:? end
   | match type of H with context [ParseForm ?r] => destruct (ParseForm r) as [? ?] eqn:? end
   | match type of H with context [verifyWebHook ?h ?n ?r ?s] =>
       destruct (verifyWebHook h n r s) as [? ?] eqn:? end
   | match type of H with context [isSome ?o] => destruct o eqn:? end
   | match type of H with context [negb ?b] => is_var b; destruct b eqn:? end
   | match type of H with context [values_lookup ?f ?k] => destruct (values_lookup f k) eqn:? end
   | match type of H with context [ps ?x] => destruct (ps x) eqn:? end ]).

Ltac close_hd :=
  match goal with
  | |- hd_error (values_lookup ?v ?k) = _ =>
      match goal with E : values_lookup v k = _ |- _ => rewrite E end
  end; simpl; f_equal; try (apply str_eqb_true; assumption).

(** [src/queue/queue.go] publishes only for a POST whose form parsed and
    which [verifyWebHook] accepted, coming from the configured channel with
    a non-empty text; the message is the normalised first [text] and the
    first [response_url]. *)
Theorem queue_publishes_only_verified hmac now secret chan pubsub (r : Request) (m : queueMessage)
  (H : In (Publish m) (fst (run (queue.Queue hmac now secret chan pubsub r)))) :
  Method r = "POST"%string /\ verifyWebHook hmac now r secret = (true, None) /\
  exists form q,
    ParseForm r = (form, None) /\
    hd_error (values_lookup form "channel_id") = Some chan /\
    hd_error (values_lookup form "text") = Some q /\ q <> EmptyString /\
    Query m = normalizeQuery q /\
    hd_error (values_lookup form "response_url") = Some (ResponseUrl m).
Proof.
  unfold queue.Queue, publishMessage, index0, when in H.
  split_in H pubsub.
  all: repeat destruct H as [H|H]; try discriminate H; try contradiction.
  all: injection H as <-.
  all: match goal with E : str_eqb (Method _) _ = true |- _ => apply str_eqb_true in E end.
  all: split; [assumption|]; split; [reflexivity|]; eexists _, _; split; [reflexivity|].
  all: simpl; repeat split; try reflexivity.
  all: try (apply String.eqb_neq; assumption).
  all: close_hd.
Qed.

Lemma queue_publishes_only_verified_witness :
  Method Samples.golang = "POST"%string /\
  verifyWebHook hmac_sha256 Samples.now Samples.golang Samples.secret = (true, None) /\
  exists form q,
    ParseForm Samples.golang = (form, None) /\
    hd_error (values_lookup form "channel_id") = Some Samples.channel /\
    hd_error (values_lookup form "text") = Some q /\ q <> EmptyString /\
    Query {| Query := "golang"; ResponseUrl := Samples.url |} = normalizeQuery q /\
    hd_error (values_lookup form "response_url") = Some Samples.url.
Proof.
  apply (queue_publishes_only_verified hmac_sha256 Samples.now Samples.secret Samples.channel
           Samples.acked Samples.golang {| Query := "golang"; ResponseUrl := Samples.url |}).
  vm_compute. right; right; right; left; reflexivity.
Defined.

(** [src/queue.go] publishes only when the form parsed and [verifyWebHook]
    accepted the request (whatever the method and the text); the message is
    the normalised first [text] and the first [response_url]. *)
Theorem anerbot_publishes_only_verified hmac now secret pubsub (r : Request) (m : queueMessage)
  (H : In (Publish m) (fst (run (anerbot.Queue hmac now secret pubsub r)))) :
  verifyWebHook hmac now r secret = (true, None) /\
  exists form q,
    ParseForm r = (form, None) /\
    hd_error (values_lookup form "text") = Some q /\
    Query m = normalizeQuery q /\
    hd_error (values_lookup form "response_url") = Some (ResponseUrl m).
Proof.
  unfold anerbot.Queue, publishMessage, index0, when in H.
  split_in H pubsub.
  all: repeat destruct H as [H|H]; try discriminate H; try contradiction.
  all: injection H as <-.
  all: split; [reflexivity|]; eexists _, _; split; [reflexivity|].
  all: simpl; repeat split; try reflexivity.
  all: close_hd.
Qed.

Lemma anerbot_publishes_only_verified_witness :
  verifyWebHook hmac_sha256 Samples.now Samples.golang Samples.secret = (true, None) /\
  exists form q,
    ParseForm Samples.golang = (form, None) /\
    hd_error (values_lookup form "text") = Some q /\
    Query {| Query := "golang"; ResponseUrl := Samples.url |} = normalizeQuery q /\
    hd_error (values_lookup form "response_url") = Some Samples.url.
Proof.
  apply (anerbot_publishes_only_verified hmac_sha256 Samples.now Samples.secret
           Samples.acked Samples.golang {| Query := "golang"; ResponseUrl := Samples.url |}).
  vm_compute. right; left; reflexivity.
Defined.

(** [src/queue/queue.go] answers a method other than POST with a 405 and
    returns at once: nothing is parsed, verified or published. *)
Theorem queue_non_post_rejected hmac now secret chan pubsub (r : Request)
  (Hping : values_get (URL_Query r) "ping" = EmptyString)
  (Hpost : Method r <> "POST"%string) :
  run (queue.Queue hmac now secret chan pubsub r) =
    ([ReadBody; HttpError 405 "Only POST requests are accepted"], Returned).
Proof.
  unfold queue.Queue. rewrite Hping. simpl.
  apply String.eqb_neq in Hpost. unfold str_eqb. rewrite Hpost. reflexivity.
Qed.

Lemma queue_non_post_rejected_witness :
  values_get (URL_Query Samples.signed_get) "ping" = EmptyString /\
  Method Samples.signed_get <> "POST"%string /\
  run (queue.Queue hmac_sha256 Samples.now Samples.secret Samples.channel Samples.acked
         Samples.signed_get) =
    ([ReadBody; HttpError 405 "Only POST requests are accepted"], Returned).
Proof.
  assert (H1 : values_get (URL_Query Samples.signed_get) "ping" = EmptyString) by reflexivity.
  assert (H2 : Method Samples.signed_get <> "POST"%string) by discriminate.
  split; [exact H1|]; split; [exact H2|].
  exact (queue_non_post_rejected hmac_sha256 Samples.now Samples.secret Samples.channel
           Samples.acked Samples.signed_get H1 H2).
Defined.

(** [src/queue.go] does not return after its 405: a signed request with
    another method whose form (taken from the URL query) parses is still
    published and answered with 201 after the 405. *)
Theorem anerbot_non_post_published hmac now secret pubsub (r : Request) form q qs u us
  (Hpost : Method r <> "POST"%string)
  (Hform : ParseForm r = (form, None))
  (Hver : verifyWebHook hmac now r secret = (true, None))
  (Htext : values_lookup form "text" = q :: qs)
  (Hq : q <> EmptyString)
  (Hurl : values_lookup form "response_url" = u :: us)
  (Hack : pubsub {| Query := normalizeQuery q; ResponseUrl := u |} = Acked) :
  let m := {| Query := normalizeQuery q; ResponseUrl := u |} in
  run (anerbot.Queue hmac now secret pubsub r) =
    ([ReadBody; HttpError 405 "Only POST requests are accepted"; Publish m; PublishAck m;
      SetHeader "Content-Type" "application/json"; WriteHeader 201;
      Encode {| ResponseType := "ephemeral"; Text := hangTight (normalizeQuery q) |}], Returned).
Proof.
  intro m.
  apply String.eqb_neq in Hpost. apply String.eqb_neq in Hq.
  unfold anerbot.Queue, str_eqb. rewrite Hpost. simpl.
  rewrite Hform, Hver. simpl. rewrite Htext. simpl. unfold str_eqb. rewrite Hq. simpl.
  rewrite Hurl. simpl. unfold publishMessage. rewrite Hack. reflexivity.
Qed.

Lemma anerbot_non_post_published_witness :
  let m := {| Query := "golang"; ResponseUrl := Samples.url |} in
  run (anerbot.Queue hmac_sha256 Samples.now Samples.secret Samples.acked Samples.signed_get) =
    ([ReadBody; HttpError 405 "Only POST requests are accepted"; Publish m; PublishAck m;
      SetHeader "Content-Type" "application/json"; WriteHeader 201;
      Encode {| ResponseType := "ephemeral"; Text := hangTight "golang" |}], Returned).
Proof.
  exact (anerbot_non_post_published hmac_sha256 Samples.now Samples.secret Samples.acked
           Samples.signed_get _ "golang" [] Samples.url []
           ltac:(discriminate) ltac:(vm_compute; reflexivity) ltac:(vm_compute; reflexivity)
           ltac:(vm_compute; reflexivity) ltac:(discriminate) ltac:(vm_compute; reflexivity)
           ltac:(reflexivity)).
Defined.

(** When the form does not parse, [src/queue/queue.go] logs and exits
    before verifying; [src/queue.go] first writes a 400 (after its 405 for
    another method) and then exits. *)
Theorem parse_form_error_exits hmac now secret chan pubsub (r : Request) form e
  (Hform : ParseForm r = (form, Some e)) :
  (values_get (URL_Query r) "ping" = EmptyString -> Method r = "POST"%string ->
   run (queue.Queue hmac now secret chan pubsub r) = ([ReadBody; Log "ParseForm"], Exited)) /\
  run (anerbot.Queue hmac now secret pubsub r) =
    ([ReadBody] ++
     (if str_eqb (Method r) "POST" then [] else [HttpError 405 "Only POST requests are accepted"]) ++
     [HttpError 400 "Couldn't parse form"; Log "ParseForm"], Exited).
Proof.
  split.
  - intros Hping Hpost. unfold queue.Queue. rewrite Hping, Hpost. simpl.
    rewrite Hform. reflexivity.
  - unfold anerbot.Queue. destruct (str_eqb (Method r) "POST"); simpl; rewrite Hform; reflexivity.
Qed.

Lemma parse_form_error_exits_witness :
  snd (ParseForm Samples.bad_form) = Some "invalid URL escape"%string /\
  (run (queue.Queue hmac_sha256 Samples.now Samples.secret Samples.channel Samples.acked
          Samples.bad_form) = ([ReadBody; Log "ParseForm"], Exited)) /\
  run (anerbot.Queue hmac_sha256 Samples.now Samples.secret Samples.acked Samples.bad_form) =
    ([ReadBody] ++ [] ++ [HttpError 400 "Couldn't parse form"; Log "ParseForm"], Exited).
Proof.
  assert (Hf : ParseForm Samples.bad_form = (fst (ParseForm Samples.bad_form),
                                              Some "invalid URL escape"%string))
    by (vm_compute; reflexivity).
  destruct (parse_form_error_exits hmac_sha256 Samples.now Samples.secret Samples.channel
              Samples.acked Samples.bad_form _ _ Hf) as [Hq Ha].
  split; [rewrite Hf; reflexivity|]. split.
  - apply Hq; reflexivity.
  - exact Ha.
Defined.

(** A verified request whose form has no [text] field makes both handlers
    log "empty text in form" and exit before writing any response. *)
Theorem missing_text_exits hmac now secret chan pubsub (r : Request) form
  (Hpost : Method r = "POST"%string)
  (Hform : ParseForm r = (form, None))
  (Hver : verifyWebHook hmac now r secret = (true, None))
  (Htext : values_lookup form "text" = []) :
  (values_get (URL_Query r) "ping" = EmptyString ->
   run (queue.Queue hmac now secret chan pubsub r) = ([ReadBody; Log "empty text in form"], Exited)) /\
  run (anerbot.Queue hmac now secret pubsub r) = ([ReadBody; Log "empty text in form"], Exited).
Proof.
  split.
  - intro Hping. unfold queue.Queue. rewrite Hping, Hpost. simpl.
    rewrite Hform, Hver. simpl. rewrite Htext. reflexivity.
  - unfold anerbot.Queue. rewrite Hpost. simpl. rewrite Hform, Hver. simpl.
    rewrite Htext. reflexivity.
Qed.

Lemma missing_text_exits_witness :
  values_lookup (fst (ParseForm Samples.no_text)) "text" = [] /\
  run (queue.Queue hmac_sha256 Samples.now Samples.secret Samples.channel Samples.acked
         Samples.no_text) = ([ReadBody; Log "empty text in form"], Exited) /\
  run (anerbot.Queue hmac_sha256 Samples.now Samples.secret Samples.acked Samples.no_text) =
    ([ReadBody; Log "empty text in form"], Exited).
Proof.
  assert (Hf : ParseForm Samples.no_text = (fst (ParseForm Samples.no_text), None))
    by (vm_compute; reflexivity).
  assert (Ht : values_lookup (fst (ParseForm Samples.no_text)) "text" = [])
    by (vm_compute; reflexivity).
  destruct (missing_text_exits hmac_sha256 Samples.now Samples.secret Samples.channel
              Samples.acked Samples.no_text _ eq_refl Hf ltac:(vm_compute; reflexivity) Ht)
    as [Hq Ha].
  split; [exact Ht|]. split; [apply Hq; reflexivity | exact Ha].
Defined.

(** [src/queue/queue.go] answers an empty [text] from the configured
    channel with the ephemeral "empty string" message (status 200) and
    publishes nothing. *)
Theorem queue_empty_text_rejected hmac now secret chan pubsub (r : Request) form qs cs
  (Hping : values_get (URL_Query r) "ping" = EmptyString)
  (Hpost : Method r = "POST"%string)
  (Hform : ParseForm r = (form, None))
  (Hver : verifyWebHook hmac now r secret = (true, None))
  (Htext : values_lookup form "text" = EmptyString :: qs)
  (Hchan : values_lookup form "channel_id" = chan :: cs) :
  run (queue.Queue hmac now secret chan pubsub r) =
    ([ReadBody; SetHeader "Content-Type" "application/json"; WriteHeader 200;
      Encode {| ResponseType := "ephemeral";
                Text := "Unable search for an empty string! :this-is-fine:" |}], Returned).
Proof.
  unfold queue.Queue. rewrite Hping, Hpost. simpl. rewrite Hform, Hver. simpl.
  rewrite Htext, Hchan. simpl. rewrite str_eqb_refl. reflexivity.
Qed.

Lemma queue_empty_text_rejected_witness :
  run (queue.Queue hmac_sha256 Samples.now Samples.secret Samples.channel Samples.acked
         Samples.empty_text) =
    ([ReadBody; SetHeader "Content-Type" "application/json"; WriteHeader 200;
      Encode {| ResponseType := "ephemeral";
                Text := "Unable search for an empty string! :this-is-fine:" |}], Returned).
Proof.
  exact (queue_empty_text_rejected hmac_sha256 Samples.now Samples.secret Samples.channel
           Samples.acked Samples.empty_text _ [] []
           eq_refl eq_refl ltac:(vm_compute; reflexivity) ltac:(vm_compute; reflexivity)
           ltac:(vm_compute; reflexivity) ltac:(vm_compute; reflexivity)).
Defined.

(** ** How [ParseForm] merges the body and the URL query *)

Lemma values_lookup_add (v : Values) (k x k' : string) :
  values_lookup (values_add v k x) k' =
    if str_eqb k' k then values_lookup v k' ++ [x] else values_lookup v k'.
Proof.
  induction v as [|[k1 vs] v IH]; simpl.
  - destruct (str_eqb k' k); reflexivity.
  - unfold str_eqb in *.
    destruct (String.eqb_spec k k1) as [<-|Hk]; simpl; unfold str_eqb in *.
    + destruct (String.eqb_spec k' k); reflexivity.
    + rewrite IH. destruct (String.eqb_spec k' k1) as [->|]; [|reflexivity].
      destruct (String.eqb_spec k1 k); [congruence|reflexivity].
Qed.

Lemma values_lookup_fold_add (vs : list string) (acc : Values) (k k' : string) :
  values_lookup (fold_left (fun a x => values_add a k x) vs acc) k' =
    values_lookup acc k' ++ (if str_eqb k' k then vs else []).
Proof.
  revert acc. induction vs as [|x vs IH]; intro acc; simpl.
  - destruct (str_eqb k' k); rewrite app_nil_r; reflexivity.
  - rewrite IH, values_lookup_add. destruct (str_eqb k' k); [|reflexivity].
    rewrite <- app_assoc. reflexivity.
Qed.

Lemma values_lookup_not_key (v : Values) (k : string) :
  ~ In k (map fst v) -> values_lookup v k = [].
Proof.
  induction v as [|[k1 vs] v IH]; simpl; intro Hn; [reflexivity|].
  unfold str_eqb. destruct (String.eqb_spec k k1) as [->|]; [tauto|].
  apply IH. tauto.
Qed.

Lemma values_add_keys (v : Values) (k x y : string) :
  In y (map fst (values_add v k x)) -> y = k \/ In y (map fst v).
Proof.
  induction v as [|[k1 vs] v IH]; simpl.
  - intros [<-|[]]. left; reflexivity.
  - destruct (str_eqb k k1); simpl; [tauto|].
    intros [<-|Hy]; [tauto|]. destruct (IH Hy); tauto.
Qed.

Lemma values_add_nodup (v : Values) (k x : string) :
  NoDup (map fst v) -> NoDup (map fst (values_add v k x)).
Proof.
  induction v as [|[k1 vs] v IH]; simpl; intro Hnd.
  - constructor; [intros []|constructor].
  - inversion Hnd as [|? ? Hnin Hnd']; subst.
    unfold str_eqb. destruct (String.eqb_spec k k1) as [->|Hk]; simpl; [exact Hnd|].
    constructor; [|exact (IH Hnd')].
    intro Hin. destruct (values_add_keys v k x k1 Hin) as [->|]; [congruence|tauto].
Qed.

Lemma parseQuery_segment_nodup (acc : Values * option string) (seg : string) :
  NoDup (map fst (fst acc)) -> NoDup (map fst (fst (parseQuery_segment acc seg))).
Proof.
  destruct acc as [m err]; simpl; intro Hnd. unfold parseQuery_segment.
  destruct (Contains_char seg ";"%char); [exact Hnd|].
  destruct seg as [|a s]; [exact Hnd|].
  destruct (Cut (String a s) "="%char) as [[key value] found].
  destruct (QueryUnescape key); [|exact Hnd].
  destruct (QueryUnescape value); [|exact Hnd].
  apply values_add_nodup; exact Hnd.
Qed.

Lemma ParseQuery_nodup (q : string) : NoDup (map fst (fst (ParseQuery q))).
Proof.
  unfold ParseQuery.
  assert (H : forall segs (acc : Values * option string), NoDup (map fst (fst acc)) ->
            NoDup (map fst (fst (fold_left parseQuery_segment segs acc)))).
  { induction segs as [|seg segs IH]; intros acc Hnd; simpl; [exact Hnd|].
    apply IH, parseQuery_segment_nodup, Hnd. }
  apply H. constructor.
Qed.

Lemma values_lookup_merge (q post : Values) (k : string) :
  NoDup (map fst q) ->
  values_lookup (fold_left (fun acc '(k, vs) => fold_left (fun a x => values_add a k x) vs acc) q post) k =
    values_lookup post k ++ values_lookup q k.
Proof.
  revert post. induction q as [|[k1 vs] q IH]; intros post Hnd; simpl.
  - rewrite app_nil_r. reflexivity.
  - inversion Hnd as [|? ? Hnin Hnd']; subst.
    rewrite IH by exact Hnd'. rewrite values_lookup_fold_add, <- app_assoc. f_equal.
    unfold str_eqb. destruct (String.eqb_spec k k1) as [->|]; [|reflexivity].
    rewrite (values_lookup_not_key q k1 Hnin), app_nil_r. reflexivity.
Qed.

(** The form a handler reads: for every key, the values from the body
    (for POST, PUT and PATCH), then those from the URL query. *)
Lemma ParseForm_lookup (r : Request) (k : string) :
  values_lookup (fst (ParseForm r)) k =
    values_lookup (fst (if str_eqb (Method r) "POST" || str_eqb (Method r) "PUT" ||
                           str_eqb (Method r) "PATCH" then parsePostForm r else ([], None))) k ++
    values_lookup (URL_Query r) k.
Proof.
  unfold ParseForm, URL_Query.
  cbv zeta.
  destruct (if str_eqb (Method r) "POST" || str_eqb (Method r) "PUT" ||
               str_eqb (Method r) "PATCH" then parsePostForm r else ([], None)) as [post err].
  pose proof (ParseQuery_nodup (RawQuery r)) as Hnd.
  destruct (ParseQuery (RawQuery r)) as [q e]. simpl.
  apply values_lookup_merge, Hnd.
Qed.

(** [src/queue/queue.go] reads the form from the signed body and the
    unsigned URL query together: when the body has no [response_url], the
    URL query's is used, and the verified request is published with it. *)
Theorem queue_url_query_fills_form hmac now secret chan pubsub (r : Request) body q qs cs u us
  (Hping : values_get (URL_Query r) "ping" = EmptyString)
  (Hpost : Method r = "POST"%string)
  (Hbody : parsePostForm r = (body, None))
  (Hqerr : snd (ParseQuery (RawQuery r)) = None)
  (Hver : verifyWebHook hmac now r secret = (true, None))
  (Htext : values_lookup body "text" = q :: qs)
  (Hq : q <> EmptyString)
  (Hchan : values_lookup body "channel_id" = chan :: cs)
  (Hnourl : values_lookup body "response_url" = [])
  (Hurl : values_lookup (URL_Query r) "response_url" = u :: us)
  (Hack : pubsub {| Query := normalizeQuery q; ResponseUrl := u |} = Acked) :
  let m := {| Query := normalizeQuery q; ResponseUrl := u |} in
  run (queue.Queue hmac now secret chan pubsub r) =
    ([ReadBody; SetHeader "Content-Type" "application/json"; WriteHeader 200;
      Publish m; PublishAck m;
      Encode {| ResponseType := "ephemeral"; Text := hangTight (normalizeQuery q) |}], Returned).
Proof.
  intro m.
  assert (Hl : forall k, values_lookup (fst (ParseForm r)) k =
                         values_lookup body k ++ values_lookup (URL_Query r) k).
  { intro k. rewrite ParseForm_lookup, Hpost, Hbody. reflexivity. }
  assert (Hform : ParseForm r = (fst (ParseForm r), None)).
  { unfold ParseForm. rewrite Hpost. simpl. rewrite Hbody.
    destruct (ParseQuery (RawQuery r)) as [qv e]. simpl in Hqerr. subst e. reflexivity. }
  apply String.eqb_neq in Hq.
  unfold queue.Queue. rewrite Hping, Hpost. simpl. rewrite Hform, Hver. simpl.
  rewrite !Hl, Htext, Hchan, Hnourl, Hurl. simpl.
  rewrite str_eqb_refl. unfold str_eqb. rewrite Hq. simpl.
  unfold publishMessage. rewrite Hack. reflexivity.
Qed.

Lemma queue_url_query_fills_form_witness :
  let m := {| Query := "golang"; ResponseUrl := "https://attacker.example/x" |} in
  run (queue.Queue hmac_sha256 Samples.now Samples.secret Samples.channel Samples.acked
         Samples.url_from_query) =
    ([ReadBody; SetHeader "Content-Type" "application/json"; WriteHeader 200;
      Publish m; PublishAck m;
      Encode {| ResponseType := "ephemeral"; Text := hangTight "golang" |}], Returned).
Proof.
  exact (queue_url_query_fills_form hmac_sha256 Samples.now Samples.secret Samples.channel
           Samples.acked Samples.url_from_query _ "golang" [] [] "https://attacker.example/x" []
           ltac:(vm_compute; reflexivity) eq_refl ltac:(vm_compute; reflexivity)
           ltac:(vm_compute; reflexivity) ltac:(vm_compute; reflexivity)
           ltac:(vm_compute; reflexivity) ltac:(discriminate) ltac:(vm_compute; reflexivity)
           ltac:(vm_compute; reflexivity) ltac:(vm_compute; reflexivity) eq_refl).
Defined.

(** ** Timestamp and signature checks *)

(** Closes a comparison of closed integers by evaluation. *)
Ltac zdec := vm_compute; repeat split; try reflexivity; try (intro; discriminate).

Lemma HasPrefix_self (p h : string) : HasPrefix (p ++ h) p = true.
Proof. induction p as [|c p IH]; simpl; [reflexivity|]. rewrite Ascii.eqb_refl. exact IH. Qed.

Lemma skip_app (p h : string) : skip (String.length p) (p ++ h) = h.
Proof. induction p as [|c p IH]; simpl; [reflexivity|]. exact IH. Qed.

Lemma TrimPrefix_app (p h : string) : TrimPrefix (p ++ h) p = h.
Proof. unfold TrimPrefix. rewrite HasPrefix_self. apply skip_app. Qed.

(** A timestamp older than five minutes is refused with the
    [checkTimestamp] error before the signature is looked at. *)
Theorem verifyWebHook_stale_rejected hmac now (r : Request) secret t
  (Ht : ParseInt (header_get r slackRequestTimestampHeader) = Some t)
  (Hold : 5 * Minute < Since now (Unix t)) :
  verifyWebHook hmac now r secret = (false, Some "checkTimestamp"%string).
Proof.
  unfold verifyWebHook. rewrite Ht. unfold checkTimestamp.
  replace (Since now (Unix t) <=? 5 * Minute) with false by (symmetry; apply Z.leb_gt; exact Hold).
  reflexivity.
Qed.

Lemma verifyWebHook_stale_rejected_witness :
  let later := {| ext := ext Samples.now + 1000; nsec := 0 |} in
  verifyWebHook hmac_sha256 later Samples.golang Samples.secret = (false, Some "checkTimestamp"%string).
Proof.
  exact (verifyWebHook_stale_rejected hmac_sha256 {| ext := ext Samples.now + 1000; nsec := 0 |}
           Samples.golang Samples.secret 1531420618 ltac:(vm_compute; reflexivity)
           ltac:(vm_compute; reflexivity)).
Defined.

(** [verifyWebHook] reports the "blank headers" error exactly when the
    timestamp is a fresh [int64] and the signature header is empty: an empty
    timestamp header never reaches that test, it fails [strconv.ParseInt]. *)
Theorem verifyWebHook_blank_error hmac now (r : Request) secret :
  snd (verifyWebHook hmac now r secret) =
    Some "either timeStamp or signature headers were blank"%string <->
  (exists t, ParseInt (header_get r slackRequestTimestampHeader) = Some t /\
             Since now (Unix t) <= 5 * Minute) /\
  header_get r slackSignatureHeader = EmptyString.
Proof.
  unfold verifyWebHook, checkTimestamp.
  destruct (ParseInt (header_get r slackRequestTimestampHeader)) as [t|] eqn:Ht.
  2:{ split; [simpl; intro E; injection E; discriminate|].
      intros [[t' [E _]] _]. discriminate E. }
  destruct (Since now (Unix t) <=? 5 * Minute) eqn:Hage; simpl.
  2:{ split; [intro E; discriminate E|]. intros [[t' [E Hle]] _]. injection E as <-.
      apply Z.leb_gt in Hage. unfold Minute, Second in *. lia. }
  apply Z.leb_le in Hage.
  assert (Hts : str_eqb (header_get r slackRequestTimestampHeader) EmptyString = false).
  { destruct (header_get r slackRequestTimestampHeader); [discriminate Ht|reflexivity]. }
  rewrite Hts. simpl.
  destruct (header_get r slackSignatureHeader) as [|c s] eqn:Hs; simpl.
  - split; [intros _; split; [exists t; split; [reflexivity|exact Hage]|reflexivity]|reflexivity].
  - split; [|intros [_ E]; discriminate E].
    destruct (DecodeString _); simpl; intro E; [discriminate E|injection E; discriminate].
Qed.

(** The [v0=] prefix of the signature header is optional: a header [h] that
    does not itself start with [v0=] and the header [v0=h] get the same
    verdict and error. *)
Theorem verifyWebHook_prefix_optional hmac now (r1 r2 : Request) secret h
  (Hts : header_get r1 slackRequestTimestampHeader = header_get r2 slackRequestTimestampHeader)
  (Hbody : Body r1 = Body r2)
  (H1 : header_get r1 slackSignatureHeader = ("v0=" ++ h)%string)
  (H2 : header_get r2 slackSignatureHeader = h)
  (Hne : h <> EmptyString)
  (Hp : HasPrefix h "v0=" = false) :
  verifyWebHook hmac now r1 secret = verifyWebHook hmac now r2 secret.
Proof.
  unfold verifyWebHook. rewrite Hts, Hbody, H1, H2.
  rewrite TrimPrefix_app.
  replace (TrimPrefix h (version ++ "=")) with h by (unfold TrimPrefix; change (version ++ "=")%string with "v0="%string; rewrite Hp; reflexivity).
  apply String.eqb_neq in Hne. unfold str_eqb at 3 4. simpl. rewrite Hne. reflexivity.
Qed.

Lemma verifyWebHook_prefix_optional_witness :
  verifyWebHook hmac_sha256 Samples.now Samples.golang Samples.secret =
    verifyWebHook hmac_sha256 Samples.now Samples.unprefixed Samples.secret /\
  verifyWebHook hmac_sha256 Samples.now Samples.unprefixed Samples.secret = (true, None).
Proof.
  split; [|vm_compute; reflexivity].
  exact (verifyWebHook_prefix_optional hmac_sha256 Samples.now Samples.golang Samples.unprefixed
           Samples.secret "aff3f2b82522c2be3ec726d3d54748bf31af79637bfd2729a2a27c281f4d6da3"
           eq_refl eq_refl eq_refl eq_refl ltac:(discriminate) eq_refl).
Defined.

(** [checkTimestamp] has no lower bound on the age: every timestamp at or
    after the current second (and within the [int64] range of [time.Unix]'s
    sum) passes. *)
Theorem checkTimestamp_accepts_future now t
  (Hnsec : 0 <= nsec now < Second)
  (Hnow : - 2 ^ 63 <= ext now)
  (Hrange : t + unixToInternal < 2 ^ 63)
  (Hfut : ext now <= t + unixToInternal) :
  fst (checkTimestamp now t) = true /\ Since now (Unix t) < Second.
Proof.
  assert (Hu : ext (Unix t) = t + unixToInternal).
  { unfold Unix, wrap64. simpl. rewrite Z.mod_small by lia. ring. }
  unfold checkTimestamp, Since, Sub. rewrite Hu. simpl.
  unfold minDuration, maxDuration, Minute, Second in *.
  set (d := (ext now - (t + unixToInternal)) * 1000000000 + (nsec now - 0)).
  assert (d < 1000000000) by (subst d; nia).
  destruct (d <? - 2 ^ 63) eqn:E1; [simpl; split; [reflexivity|lia]|].
  destruct (2 ^ 63 - 1 <? d) eqn:E2; [apply Z.ltb_lt in E2; lia|].
  split; [apply Z.leb_le; lia|lia].
Qed.

Lemma checkTimestamp_accepts_future_witness :
  fst (checkTimestamp Samples.now 1531421618) = true /\
  Since Samples.now (Unix 1531421618) < Second.
Proof.
  exact (checkTimestamp_accepts_future Samples.now 1531421618
           ltac:(zdec) ltac:(zdec) ltac:(zdec) ltac:(zdec)).
Defined.

(** [time.Unix] adds [unixToInternal] in [int64] arithmetic: a timestamp
    within that distance of the [int64] maximum wraps around to a date far in
    the past, and [checkTimestamp] refuses it for any current time after
    year 1. *)
Theorem checkTimestamp_rejects_wrapped now t
  (Hnsec : 0 <= nsec now < Second)
  (Hnow : 0 <= ext now)
  (Ht : 2 ^ 63 - unixToInternal <= t < 2 ^ 63) :
  ext (Unix t) = t + unixToInternal - 2 ^ 64 /\
  Since now (Unix t) = maxDuration /\
  fst (checkTimestamp now t) = false.
Proof.
  assert (Hu : ext (Unix t) = t + unixToInternal - 2 ^ 64).
  { unfold Unix, wrap64. cbn [ext]. unfold unixToInternal in *.
    Z.div_mod_to_equations. lia. }
  assert (Hs : Since now (Unix t) = maxDuration).
  { unfold Since, Sub. rewrite Hu.
    set (d := (ext now - (t + unixToInternal - 2 ^ 64)) * Second + (nsec now - nsec (Unix t))).
    assert (Hd : 2 ^ 63 - 1 < d).
    { subst d. replace unixToInternal with 62135596800 in * by reflexivity.
      unfold Unix, Second. cbn [nsec]. lia. }
    unfold minDuration, maxDuration.
    destruct (d <? - 2 ^ 63) eqn:E1; [apply Z.ltb_lt in E1; lia|].
    destruct (2 ^ 63 - 1 <? d) eqn:E2; [reflexivity|apply Z.ltb_ge in E2; lia]. }
  split; [exact Hu|]. split; [exact Hs|].
  unfold checkTimestamp. rewrite Hs. reflexivity.
Qed.

Lemma checkTimestamp_rejects_wrapped_witness :
  ParseInt "9223372036854775807" = Some (2 ^ 63 - 1) /\
  ext (Unix (2 ^ 63 - 1)) = 2 ^ 63 - 1 + unixToInternal - 2 ^ 64 /\
  Since Samples.now (Unix (2 ^ 63 - 1)) = maxDuration /\
  fst (checkTimestamp Samples.now (2 ^ 63 - 1)) = false.
Proof.
  split; [vm_compute; reflexivity|].
  exact (checkTimestamp_rejects_wrapped Samples.now (2 ^ 63 - 1)
           ltac:(zdec) ltac:(zdec) ltac:(zdec)).
Defined.

(** ** The Slack reply built from the Airtable records *)

Lemma parse_digits_app (s1 s2 : string) (acc : Z) :
  parse_digits (s1 ++ s2) acc =
    match parse_digits s1 acc with Some a => parse_digits s2 a | None => None end.
Proof.
  revert acc. induction s1 as [|c s1 IH]; intro acc; simpl; [reflexivity|].
  destruct (digit_of c); [apply IH|reflexivity].
Qed.

Lemma digit_of_digit (n : Z) :
  0 <= n -> digit_of (ascii_of_nat (48 + Z.to_nat (n mod 10))) = Some (n mod 10).
Proof.
  intro Hn. pose proof (Z.mod_pos_bound n 10 ltac:(lia)) as Hb.
  unfold digit_of. rewrite nat_ascii_embedding by lia.
  rewrite Nat2Z.inj_add, Z2Nat.id by lia. change (Z.of_nat 48) with 48.
  replace ((48 <=? 48 + n mod 10) && (48 + n mod 10 <=? 57)) with true
    by (symmetry; apply andb_true_iff; split; apply Z.leb_le; lia).
  f_equal. ring.
Qed.

Lemma digits_rev_S (f : nat) (n : Z) :
  response.digits_rev (S f) n =
    if n <? 10 then String (ascii_of_nat (48 + Z.to_nat (n mod 10))) EmptyString
    else (response.digits_rev f (n / 10) ++
          String (ascii_of_nat (48 + Z.to_nat (n mod 10))) EmptyString)%string.
Proof. reflexivity. Qed.

Lemma parse_digits_rev (fuel : nat) (n : Z) :
  0 <= n < 10 ^ Z.of_nat fuel -> parse_digits (response.digits_rev fuel n) 0 = Some n.
Proof.
  revert n. induction fuel as [|f IH]; intros n Hn.
  - simpl in Hn. cbn. f_equal. lia.
  - rewrite digits_rev_S.
    remember (ascii_of_nat (48 + Z.to_nat (n mod 10))) as c eqn:Ec.
    assert (Hd : digit_of c = Some (n mod 10)) by (subst c; apply digit_of_digit; lia).
    destruct (n <? 10) eqn:E.
    + apply Z.ltb_lt in E. cbn [parse_digits]. rewrite Hd.
      rewrite Z.mod_small by lia. reflexivity.
    + apply Z.ltb_ge in E. rewrite parse_digits_app.
      rewrite IH.
      * cbn [parse_digits]. rewrite Hd. f_equal.
        pose proof (Z.div_mod n 10 ltac:(lia)). lia.
      * split; [apply Z.div_pos; lia|].
        apply Z.div_lt_upper_bound; [lia|].
        rewrite Nat2Z.inj_succ, Z.pow_succ_r in Hn by lia. lia.
Qed.

Lemma digits_rev_head (fuel : nat) (n : Z) :
  0 <= n -> exists c s, response.digits_rev (S fuel) n = String c s /\ digit_of c <> None.
Proof.
  revert n. induction fuel as [|f IH]; intros n Hn; rewrite digits_rev_S.
  - destruct (n <? 10); cbn [response.digits_rev append]; do 2 eexists; (split; [reflexivity|]);
      rewrite digit_of_digit by lia; discriminate.
  - destruct (n <? 10).
    + do 2 eexists; split; [reflexivity|]. rewrite digit_of_digit by lia; discriminate.
    + destruct (IH (n / 10) ltac:(apply Z.div_pos; lia)) as [c [s [E Hc]]].
      rewrite E. do 2 eexists; split; [reflexivity|exact Hc].
Qed.

Lemma ParseInt_digit_head (c : ascii) (s : string) :
  digit_of c <> None ->
  ParseInt (String c s) =
    match parse_digits (String c s) 0 with
    | Some un => if un <? 2 ^ 63 then Some un else None
    | None => None
    end.
Proof.
  intro Hc.
  destruct c as [[] [] [] [] [] [] [] []];
    first [ exfalso; apply Hc; vm_compute; reflexivity | reflexivity ].
Qed.

(** [fmt.Sprintf("%d", n)] is read back by [strconv.ParseInt] as [n]. *)
Lemma ParseInt_itoa (n : nat) :
  Z.of_nat n < 2 ^ 63 -> ParseInt (response.itoa n) = Some (Z.of_nat n).
Proof.
  intro Hn. unfold response.itoa.
  destruct (digits_rev_head n (Z.of_nat n) ltac:(lia)) as [c [s [E Hc]]].
  rewrite E, ParseInt_digit_head by exact Hc. rewrite <- E.
  rewrite parse_digits_rev.
  - replace (Z.of_nat n <? 2 ^ 63) with true by (symmetry; apply Z.ltb_lt; exact Hn).
    reflexivity.
  - split; [lia|].
    apply Z.lt_trans with (10 ^ Z.of_nat n); [apply Z.pow_gt_lin_r; lia|].
    apply Z.pow_lt_mono_r; lia.
Qed.



(** The reply's text is the "no items" message exactly when there are no
    records; otherwise it is [Found N items! ...] where [N] is the number of
    records written in decimal ([strconv.ParseInt] reads it back). *)
Theorem buildSlackResponse_text tid vid (f : list response.feature) :
  (response.Text (response.buildSlackResponse tid vid f) = response.noItemsText <-> f = []) /\
  (f <> [] -> Z.of_nat (length f) < 2 ^ 63 ->
   exists s, response.Text (response.buildSlackResponse tid vid f) =
               ("Found " ++ s ++ " items! Click on any result to learn more.")%string /\
             ParseInt s = Some (Z.of_nat (length f))).
Proof.
  destruct f as [|v f]; simpl.
  - split; [split; reflexivity|]. intro H; contradiction H; reflexivity.
  - split; [split; intro E; discriminate E|].
    intros _ Hn. eexists; split; [reflexivity|].
    exact (ParseInt_itoa (S (length f)) Hn).
Qed.

Lemma buildSlackResponse_text_witness :
  exists s, response.Text (response.buildSlackResponse Samples.table Samples.view
                             [Samples.sso; Samples.bare]) =
              ("Found " ++ s ++ " items! Click on any result to learn more.")%string /\
            ParseInt s = Some 2.
Proof.
  exact (proj2 (buildSlackResponse_text Samples.table Samples.view [Samples.sso; Samples.bare])
           ltac:(discriminate) ltac:(zdec)).
Defined.

Lemma line_if_empty (label v : string) :
  label <> EmptyString -> response.line_if label v = EmptyString <-> v = EmptyString.
Proof.
  intro Hl. unfold response.line_if, str_eqb.
  destruct (String.eqb_spec v EmptyString) as [->|Hv]; [tauto|].
  split; [|intro; contradiction]. destruct label; [contradiction|discriminate].
Qed.

Lemma append_empty (a b : string) : (a ++ b)%string = EmptyString <-> a = EmptyString /\ b = EmptyString.
Proof. destruct a; simpl; [tauto|]. split; [discriminate|intros [E _]; discriminate E]. Qed.

(** The text of a record's attachment is empty exactly when the record's
    six optional columns (roadmap, team, plan, feature flag, entitlements,
    documentation) are all empty. *)
Theorem attachment_value_empty tid vid (v : response.feature) :
  map response.Value (response.AttachmentFields (response.attachment_of tid vid v)) = [EmptyString] <->
  let fs := response.Fields v in
  response.Roadmap fs = EmptyString /\ response.TeamResponsible fs = EmptyString /\
  response.Plan fs = EmptyString /\ response.FeatureFlag fs = EmptyString /\
  response.Entitlements fs = EmptyString /\ response.Documentation fs = EmptyString.
Proof.
  unfold response.attachment_of. cbn [response.AttachmentFields map response.Value].
  set (fs := response.Fields v).
  assert (Hv : forall a b c d e g : string,
            [(a ++ b ++ c ++ d ++ e ++ g)%string] = [EmptyString] <->
            a = EmptyString /\ b = EmptyString /\ c = EmptyString /\
            d = EmptyString /\ e = EmptyString /\ g = EmptyString).
  { intros. split; [intro E; injection E as E; rewrite !append_empty in E; tauto|].
    intros H. f_equal. rewrite !append_empty. tauto. }
  rewrite Hv. rewrite !line_if_empty by discriminate. tauto.
Qed.

(** ** The Pub/Sub consumer and the local handler *)

(** When the message decodes and the Airtable lookup succeeds, [Response]
    posts the reply built from the records to the message's [response_url]
    (if a request to it can be built), reports a failed send as an error,
    and never ends the process. *)
Theorem response_lookup_success tid vid newOk listRecords unmarshal newRequestOk doOk
  (m : response.PubSubMessage) (msg : queueMessage) fs
  (Hun : unmarshal (response.Data m) = Some msg)
  (Hlookup : response.queryAirtable tid vid newOk listRecords (Query msg) = Some fs) :
  let res := response.buildSlackResponse tid vid fs in
  response.Response tid vid newOk listRecords unmarshal newRequestOk doOk m =
    if newRequestOk (ResponseUrl msg) then
      ([response.Post (ResponseUrl msg) res],
       Next (if doOk (ResponseUrl msg) res then None
             else Some "unable to send message to Slack"%string))
    else ([], Next (Some "unable to build new HTTP request"%string)).
Proof.
  intro res. unfold response.Response. rewrite Hun, Hlookup. fold res.
  destruct (newRequestOk (ResponseUrl msg)); simpl; [|reflexivity].
  destruct (doOk (ResponseUrl msg) res); reflexivity.
Qed.

Lemma response_lookup_success_witness :
  let msg := {| Query := "sso"; ResponseUrl := Samples.url |} in
  let res := response.buildSlackResponse Samples.table Samples.view [Samples.sso] in
  response.Response Samples.table Samples.view true Samples.airtable_sso
    (fun _ => Some msg) (fun _ => true) (fun _ _ => true) {| response.Data := "{}" |} =
    ([response.Post Samples.url res], Next None).
Proof.
  exact (response_lookup_success Samples.table Samples.view true Samples.airtable_sso
           (fun _ => Some {| Query := "sso"; ResponseUrl := Samples.url |}) (fun _ => true)
           (fun _ _ => true) {| response.Data := "{}" |}
           {| Query := "sso"; ResponseUrl := Samples.url |} [Samples.sso] eq_refl eq_refl).
Defined.

(** Whatever the collaborators do, [Response] posts at most one message,
    only to the [response_url] of the decoded Pub/Sub message; a message that
    does not decode causes no effect; and the process ends (through
    [log.Fatalf], never a panic) only when the Airtable lookup failed and the
    failure notice could not be delivered. *)
Theorem response_effects tid vid newOk listRecords unmarshal newRequestOk doOk
  (m : response.PubSubMessage) :
  let out := response.Response tid vid newOk listRecords unmarshal newRequestOk doOk m in
  (length (filter (fun e => match e with response.Post _ _ => true | _ => false end) (fst out)) <= 1)%nat /\
  (forall url p, In (response.Post url p) (fst out) ->
     exists msg, unmarshal (response.Data m) = Some msg /\ url = ResponseUrl msg) /\
  (unmarshal (response.Data m) = None -> out = ([], Next (Some "could not unmarshal message"%string))) /\
  (forall h, snd out = Halt h ->
     h = Exited /\
     exists msg, unmarshal (response.Data m) = Some msg /\
                 response.queryAirtable tid vid newOk listRecords (Query msg) = None /\
                 (newRequestOk (ResponseUrl msg) = false \/
                  newRequestOk (ResponseUrl msg) = true /\
                  doOk (ResponseUrl msg)
                    {| response.ReplaceOriginal := EmptyString; response.ResponseType := "ephemeral";
                       response.Text := response.failureText; response.Attachments := [] |} = false)).
Proof.
  intro out. subst out. unfold response.Response, response.sendFailureMessage, when.
  destruct (unmarshal (response.Data m)) as [msg|] eqn:Hun.
  2:{ simpl. split; [lia|]. split; [intros ? ? []|]. split; [reflexivity|].
      intros h E; discriminate E. }
  destruct (response.queryAirtable tid vid newOk listRecords (Query msg)) as [fs|] eqn:Hlk;
    destruct (newRequestOk (ResponseUrl msg)) eqn:Hn;
    try match goal with |- context [doOk ?u ?p] => destruct (doOk u p) eqn:Hd end; simpl.
  all: split; [lia|].
  all: split; [intros url p Hin;
               repeat match type of Hin with _ \/ _ => destruct Hin as [Hin|Hin] end;
               try contradiction; try discriminate Hin;
               injection Hin as <- _; exists msg; split; reflexivity|].
  all: split; [intro E; discriminate E|].
  all: intros h E; first
         [ discriminate E
         | injection E as <-; split; [reflexivity|]; exists msg; split; [reflexivity|];
           split; [assumption|]; first [left; assumption | right; split; assumption] ].
Qed.

(** The local handler [LocalResponse] checks no signature: for any form
    that parses and has a [text], it answers 200 with the reply built from
    the Airtable records for the normalised text (after a 405 when the
    method is not POST, since it does not return there). *)
Theorem local_response_unauthenticated tid vid newOk listRecords (r : Request) form q qs fs
  (Hform : ParseForm r = (form, None))
  (Htext : values_lookup form "text" = q :: qs)
  (Hlookup : response.queryAirtable tid vid newOk listRecords (normalizeQuery q) = Some fs) :
  run (response.LocalResponse tid vid newOk listRecords r) =
    ([response.LReadBody] ++
     (if str_eqb (Method r) "POST" then []
      else [response.LHttpError 405 "Only POST requests are accepted"]) ++
     [response.LSetHeader "Content-Type" "application/json"; response.LWriteHeader 200;
      response.LEncode (response.buildSlackResponse tid vid fs)], Returned).
Proof.
  unfold response.LocalResponse.
  destruct (str_eqb (Method r) "POST"); simpl; rewrite Hform; simpl;
    rewrite Htext; simpl; rewrite Hlookup; reflexivity.
Qed.

Lemma local_response_unauthenticated_witness :
  run (response.LocalResponse Samples.table Samples.view true Samples.airtable_sso Samples.unsigned) =
    ([response.LReadBody] ++ [] ++
     [response.LSetHeader "Content-Type" "application/json"; response.LWriteHeader 200;
      response.LEncode (response.buildSlackResponse Samples.table Samples.view [Samples.sso])],
     Returned).
Proof.
  exact (local_response_unauthenticated Samples.table Samples.view true Samples.airtable_sso
           Samples.unsigned _ "search SSO" [] [Samples.sso]
           ltac:(vm_compute; reflexivity) ltac:(vm_compute; reflexivity) eq_refl).
Defined.

(** [LocalResponse]'s failures: a form that does not parse gets a 400 and
    ends the process; a form without [text] panics on [r.Form["text"][0]]
    before any reply; a failed Airtable lookup ends the process without a
    reply. *)
Theorem local_response_failures tid vid newOk listRecords (r : Request) form err :
  let pre := [response.LReadBody] ++
             (if str_eqb (Method r) "POST" then []
              else [response.LHttpError 405 "Only POST requests are accepted"]) in
  (ParseForm r = (form, Some err) ->
   run (response.LocalResponse tid vid newOk listRecords r) =
     (pre ++ [response.LHttpError 400 "Couldn't parse form"; response.LLog "ParseForm"], Exited)) /\
  (ParseForm r = (form, None) -> values_lookup form "text" = [] ->
   run (response.LocalResponse tid vid newOk listRecords r) = (pre, Panicked)) /\
  (forall q qs, ParseForm r = (form, None) -> values_lookup form "text" = q :: qs ->
   response.queryAirtable tid vid newOk listRecords (normalizeQuery q) = None ->
   run (response.LocalResponse tid vid newOk listRecords r) =
     (pre ++ [response.LLog "error querying Airtable"], Exited)).
Proof.
  intro pre. subst pre. unfold response.LocalResponse.
  split; [|split]; [intro Hf| intros Hf Ht | intros q qs Hf Ht Hl];
    destruct (str_eqb (Method r) "POST"); simpl; rewrite Hf; simpl;
    try rewrite Ht; simpl; try rewrite Hl; reflexivity.
Qed.

Lemma local_response_failures_witness :
  run (response.LocalResponse Samples.table Samples.view true Samples.airtable_sso Samples.no_text) =
    ([response.LReadBody] ++ [], Panicked).
Proof.
  exact (proj1 (proj2 (local_response_failures Samples.table Samples.view true Samples.airtable_sso
                         Samples.no_text (fst (ParseForm Samples.no_text)) EmptyString))
           ltac:(vm_compute; reflexivity) ltac:(vm_compute; reflexivity)).
Defined.
